(** * Vehicle_Occlusion backend: record store, Detection model and job runner

    A shallow embedding of [backend/src/services/dataService.js], the
    [Detection] model ([models/Detection.js]) and the background job of
    [backend/src/routes/detectionRoutes.js].

    Modelling conventions.
    - JavaScript values that reach the JSON files are [json] values; an
      object is an association list of its keys in insertion order.  A
      property holding [undefined] is the same as an absent property once
      written with [JSON.stringify], so [undefined] is [None] and an object
      never stores it.
    - Numbers are modelled exactly, as rationals [Q]; timestamps (both
      [Date] objects and the ISO strings they serialise to) are the number of
      milliseconds since the epoch.
    - A thrown JavaScript value is [Throw v]; asynchronous code runs in a
      state and exception monad over the [World]: the three JSON files, the
      clock, the uuid supply and the outcome of each future file write. *)

From Stdlib Require Import List String Ascii Bool ZArith QArith Qround Lia DecimalN.
Import ListNotations.
Open Scope string_scope.
#[local] Set Warnings "-register-all".

(** ** JSON values and JavaScript objects *)

Inductive json : Type :=
| JNull
| JBool (b : bool)
| JNum (q : Q)
| JStr (s : string)
| JArr (l : list json)
| JObj (fs : list (string * json)).

(** A JavaScript object literal before serialisation: a key may hold
    [undefined] ([None]). *)
Definition obj := list (string * option json).

Fixpoint obj_get (fs : list (string * json)) (k : string) : option json :=
  match fs with
  | [] => None
  | (k', v) :: r => if String.eqb k k' then Some v else obj_get r k
  end.

(** [o[k] = v]: an existing key keeps its position, a new key is appended. *)
Fixpoint obj_set (fs : list (string * json)) (k : string) (v : json)
  : list (string * json) :=
  match fs with
  | [] => [(k, v)]
  | (k', v') :: r =>
      if String.eqb k k' then (k', v) :: r else (k', v') :: obj_set r k v
  end.

Fixpoint obj_del (fs : list (string * json)) (k : string)
  : list (string * json) :=
  match fs with
  | [] => []
  | (k', v') :: r => if String.eqb k k' then obj_del r k else (k', v') :: obj_del r k
  end.

(** Setting a key to [undefined] removes it from the serialised object. *)
Definition obj_put (fs : list (string * json)) (k : string) (ov : option json) :=
  match ov with
  | Some v => obj_set fs k v
  | None => obj_del fs k
  end.

(** [{ ...fs, ...src }] *)
Definition spread (fs : list (string * json)) (src : obj) : list (string * json) :=
  fold_left (fun acc kv => obj_put acc (fst kv) (snd kv)) src fs.

Definition obj_of (fs : list (string * json)) : obj :=
  map (fun kv => (fst kv, Some (snd kv))) fs.

(** Own enumerable properties used by a spread of an arbitrary value.  Only
    objects contribute here; spreading [null], a number or a boolean gives no
    key, and the index keys of strings and arrays are not modelled. *)
Definition to_fields (v : json) : list (string * json) :=
  match v with
  | JObj fs => fs
  | _ => []
  end.

(** The key of an object literal's [undefined]-free association list. *)
Fixpoint obj_lookup (o : obj) (k : string) : option (option json) :=
  match o with
  | [] => None
  | (k', ov) :: r => if String.eqb k k' then Some ov else obj_lookup r k
  end.

Definition Qpos_b (q : Q) : bool := negb (Qle_bool q 0).

(** JavaScript truthiness ([NaN] is not a value of the model). *)
Definition truthy (v : option json) : bool :=
  match v with
  | None | Some JNull => false
  | Some (JBool b) => b
  | Some (JNum q) => negb (Qeq_bool q 0)
  | Some (JStr s) => negb (String.eqb s "")
  | Some (JArr _) | Some (JObj _) => true
  end.

(** [a || b] *)
Definition js_or (a : option json) (b : option json) : option json :=
  if truthy a then a else b.

(** [a === b]; two objects or arrays read from a file are never the same
    reference as a value passed in by a caller. *)
Definition strict_eq (a b : option json) : bool :=
  match a, b with
  | None, None => true
  | Some JNull, Some JNull => true
  | Some (JBool x), Some (JBool y) => Bool.eqb x y
  | Some (JNum x), Some (JNum y) => Qeq_bool x y
  | Some (JStr x), Some (JStr y) => String.eqb x y
  | _, _ => false
  end.

(** ** Results, the world, the monad *)

Inductive res (A : Type) : Type :=
| Ok (a : A)
| Throw (e : json).
Arguments Ok {A} a.
Arguments Throw {A} e.

Definition type_error (msg : string) : json :=
  JObj [("name", JStr "TypeError"); ("message", JStr msg)].

(** [v[k]]: reading a property of [undefined] or [null] throws. *)
Definition get_prop (v : option json) (k : string) : res (option json) :=
  match v with
  | None | Some JNull => Throw (type_error ("Cannot read properties of null or undefined (reading " ++ k ++ ")"))
  | Some (JObj fs) => Ok (obj_get fs k)
  | Some (JArr l) =>
      if String.eqb k "length" then Ok (Some (JNum (inject_Z (Z.of_nat (List.length l))))) else Ok None
  | Some (JStr s) =>
      if String.eqb k "length" then Ok (Some (JNum (inject_Z (Z.of_nat (String.length s))))) else Ok None
  | Some _ => Ok None
  end.

(** The receiver of [.find], [.filter], [.push], ... must be an array. *)
Definition as_array (v : option json) : res (list json) :=
  match v with
  | Some (JArr l) => Ok l
  | _ => Throw (type_error "not an array")
  end.

(** The content of one JSON file: a parsed value, or a file that is
    missing, unreadable or not valid JSON. *)
Inductive file : Type :=
| FileOk (v : json)
| FileBad.

(** The outcome of one [fs.writeJson]: success, a failure that touched
    nothing, or a failure after the in-place [writeFile] truncated the file. *)
Inductive wfault : Type :=
| WOk
| WFailKeep
| WFailTruncate.

Inductive coll : Type := Users | Uploads | Detections.

Record World : Type := mkWorld {
  w_users : file;
  w_uploads : file;
  w_dets : file;
  w_clock : Z;
  w_uuid : nat;
  w_faults : list wfault
}.

Definition get_file (w : World) (c : coll) : file :=
  match c with
  | Users => w_users w
  | Uploads => w_uploads w
  | Detections => w_dets w
  end.

Definition set_file (w : World) (c : coll) (f : file) : World :=
  match c with
  | Users => mkWorld f (w_uploads w) (w_dets w) (w_clock w) (w_uuid w) (w_faults w)
  | Uploads => mkWorld (w_users w) f (w_dets w) (w_clock w) (w_uuid w) (w_faults w)
  | Detections => mkWorld (w_users w) (w_uploads w) f (w_clock w) (w_uuid w) (w_faults w)
  end.

Definition M (A : Type) : Type := World -> res A * World.

Definition ret {A} (a : A) : M A := fun w => (Ok a, w).

Definition bind {A B} (m : M A) (k : A -> M B) : M B :=
  fun w => match m w with
           | (Ok a, w') => k a w'
           | (Throw e, w') => (Throw e, w')
           end.

Definition lift {A} (r : res A) : M A := fun w => (r, w).

Definition raise {A} (e : json) : M A := fun w => (Throw e, w).

(** [try { m } catch (e) { h(e) }] *)
Definition try_catch {A} (m : M A) (h : json -> M A) : M A :=
  fun w => match m w with
           | (Throw e, w') => h e w'
           | r => r
           end.

Notation "x <- m ;; k" := (bind m (fun x => k))
  (at level 61, m at next level, right associativity).

(** [new Date()]: the current time; the clock moves only when the code
    waits ([setTimeout]). *)
Definition now : M json := fun w => (Ok (JNum (inject_Z (w_clock w))), w).

Definition sleep (ms : Z) : M unit :=
  fun w => (Ok tt, mkWorld (w_users w) (w_uploads w) (w_dets w)
                           (w_clock w + ms) (w_uuid w) (w_faults w)).

Fixpoint uint_string (d : Decimal.uint) : string :=
  match d with
  | Decimal.Nil => ""
  | Decimal.D0 r => "0" ++ uint_string r
  | Decimal.D1 r => "1" ++ uint_string r
  | Decimal.D2 r => "2" ++ uint_string r
  | Decimal.D3 r => "3" ++ uint_string r
  | Decimal.D4 r => "4" ++ uint_string r
  | Decimal.D5 r => "5" ++ uint_string r
  | Decimal.D6 r => "6" ++ uint_string r
  | Decimal.D7 r => "7" ++ uint_string r
  | Decimal.D8 r => "8" ++ uint_string r
  | Decimal.D9 r => "9" ++ uint_string r
  end.

Definition nat_string (n : nat) : string := uint_string (Nat.to_uint n).

(** [uuidv4()]: a fresh identifier from the supply. *)
Definition uuidv4 : M json :=
  fun w => (Ok (JStr ("uuid-" ++ nat_string (w_uuid w))),
            mkWorld (w_users w) (w_uploads w) (w_dets w) (w_clock w)
                    (S (w_uuid w)) (w_faults w)).

Definition pop_fault (w : World) : wfault * World :=
  match w_faults w with
  | [] => (WOk, w)
  | f :: r => (f, mkWorld (w_users w) (w_uploads w) (w_dets w) (w_clock w) (w_uuid w) r)
  end.

(** ** [DataService] ([backend/src/services/dataService.js]) *)

Module DataService.

(** [readData(filename)]: [fs.readJson]; any read or parse failure is caught,
    logged and answered with [[]]. *)
Definition readData (c : coll) : M json :=
  fun w => match get_file w c with
           | FileOk v => (Ok v, w)
           | FileBad => (Ok (JArr []), w)
           end.

(** [writeData(filename, data)]: [fs.writeJson]; a failure is caught, logged
    and answered with [false]. *)
Definition writeData (c : coll) (data : json) : M bool :=
  fun w => let (f, w1) := pop_fault w in
           match f with
           | WOk => (Ok true, set_file w1 c (FileOk data))
           | WFailKeep => (Ok false, w1)
           | WFailTruncate => (Ok false, set_file w1 c FileBad)
           end.

(** [arr.find(cb)] and [arr.findIndex(cb)] with a callback that may throw. *)
Fixpoint find_m (cb : json -> res bool) (l : list json) : res (option json) :=
  match l with
  | [] => Ok None
  | x :: r => match cb x with
              | Ok true => Ok (Some x)
              | Ok false => find_m cb r
              | Throw e => Throw e
              end
  end.

Fixpoint findIndex_m (cb : json -> res bool) (l : list json) : res (option nat) :=
  match l with
  | [] => Ok None
  | x :: r => match cb x with
              | Ok true => Ok (Some O)
              | Ok false => match findIndex_m cb r with
                            | Ok (Some i) => Ok (Some (S i))
                            | o => o
                            end
              | Throw e => Throw e
              end
  end.

(** [x => x.id === id] *)
Definition has_id (id : option json) (x : json) : res bool :=
  match get_prop (Some x) "id" with
  | Ok v => Ok (strict_eq v id)
  | Throw e => Throw e
  end.

Fixpoint replace_nth (l : list json) (n : nat) (v : json) : list json :=
  match l, n with
  | [], _ => []
  | _ :: r, O => v :: r
  | x :: r, S n' => x :: replace_nth r n' v
  end.

Definition getDetections : M json := readData Detections.

Definition getDetectionById (id : option json) : M (option json) :=
  detections <- getDetections ;;
  l <- lift (as_array (Some detections)) ;;
  lift (find_m (has_id id) l).

(** The part of [createDetection] that runs after [await this.getDetections()]
    resolved with [detections]. *)
Definition createDetection_cont (detectionData : obj) (detections : json) : M json :=
  i <- uuidv4 ;;
  c <- now ;;
  u <- now ;;
  let newDetection :=
    JObj (obj_set (obj_set (spread [("id", i)] detectionData) "createdAt" c) "updatedAt" u) in
  l <- lift (as_array (Some detections)) ;;
  _ <- writeData Detections (JArr (l ++ [newDetection])) ;;
  ret newDetection.

Definition createDetection (detectionData : obj) : M json :=
  detections <- getDetections ;;
  createDetection_cont detectionData detections.

(** [updateUser], [updateUpload] and [updateDetection] are the same code over
    their own file. *)
Definition update_in (c : coll) (id : option json) (updateData : obj) : M (option json) :=
  records <- readData c ;;
  l <- lift (as_array (Some records)) ;;
  idx <- lift (findIndex_m (has_id id) l) ;;
  match idx with
  | None => ret None
  | Some k =>
      u <- now ;;
      let updated := JObj (obj_set (spread (to_fields (nth k l JNull)) updateData) "updatedAt" u) in
      _ <- writeData c (JArr (replace_nth l k updated)) ;;
      ret (Some updated)
  end.

Definition updateUser := update_in Users.
Definition updateUpload := update_in Uploads.
Definition updateDetection := update_in Detections.

End DataService.

(** ** The [Detection] model ([models/Detection.js], unnamed part_001) *)

Module Detection.
Import DataService.

(** The instance fields set by the constructor; [undefined] is [None].
    [Object.assign(this, data)] only matters for these fields: [save] reads
    no other property of the instance. *)
Record t : Type := mk {
  id : option json;
  userId : option json;
  uploadId : option json;
  status : option json;
  processingStartTime : option json;
  processingEndTime : option json;
  processingDuration : option json;
  results : option json;
  annotations : option json;
  errorDetails : option json;
  metrics : option json;
  createdAt : option json;
  updatedAt : option json
}.

Definition default_results : json :=
  JObj [("totalVehicles", JNum 0); ("occludedVehicles", JNum 0);
        ("occlusionPercentage", JNum 0); ("vehicles", JArr []);
        ("imageMetadata", JObj []); ("processingMetadata", JObj [])].

(** [new Detection(detectionData)] *)
Definition of_json (v : json) : t :=
  let g k := obj_get (to_fields v) k in
  mk (g "id") (g "userId") (g "uploadId")
     (js_or (g "status") (Some (JStr "pending")))
     (g "processingStartTime") (g "processingEndTime") (g "processingDuration")
     (js_or (g "results") (Some default_results))
     (js_or (g "annotations") (Some (JArr [])))
     (js_or (g "errorDetails") (Some (JObj [])))
     (js_or (g "metrics") (Some (JObj [])))
     (g "createdAt") (g "updatedAt").

(** [Object.assign(this, data)] restricted to the instance fields. *)
Definition assign (d : t) (v : json) : t :=
  let g k old := match obj_get (to_fields v) k with Some x => Some x | None => old end in
  mk (g "id" (id d)) (g "userId" (userId d)) (g "uploadId" (uploadId d))
     (g "status" (status d)) (g "processingStartTime" (processingStartTime d))
     (g "processingEndTime" (processingEndTime d))
     (g "processingDuration" (processingDuration d))
     (g "results" (results d)) (g "annotations" (annotations d))
     (g "errorDetails" (errorDetails d)) (g "metrics" (metrics d))
     (g "createdAt" (createdAt d)) (g "updatedAt" (updatedAt d)).

Definition set_status (d : t) (v : option json) : t :=
  mk (id d) (userId d) (uploadId d) v (processingStartTime d) (processingEndTime d)
     (processingDuration d) (results d) (annotations d) (errorDetails d) (metrics d)
     (createdAt d) (updatedAt d).
Definition set_start (d : t) (v : option json) : t :=
  mk (id d) (userId d) (uploadId d) (status d) v (processingEndTime d)
     (processingDuration d) (results d) (annotations d) (errorDetails d) (metrics d)
     (createdAt d) (updatedAt d).
Definition set_end (d : t) (v : option json) : t :=
  mk (id d) (userId d) (uploadId d) (status d) (processingStartTime d) v
     (processingDuration d) (results d) (annotations d) (errorDetails d) (metrics d)
     (createdAt d) (updatedAt d).
Definition set_duration (d : t) (v : option json) : t :=
  mk (id d) (userId d) (uploadId d) (status d) (processingStartTime d)
     (processingEndTime d) v (results d) (annotations d) (errorDetails d) (metrics d)
     (createdAt d) (updatedAt d).
Definition set_results (d : t) (v : option json) : t :=
  mk (id d) (userId d) (uploadId d) (status d) (processingStartTime d)
     (processingEndTime d) (processingDuration d) v (annotations d) (errorDetails d)
     (metrics d) (createdAt d) (updatedAt d).
Definition set_errorDetails (d : t) (v : option json) : t :=
  mk (id d) (userId d) (uploadId d) (status d) (processingStartTime d)
     (processingEndTime d) (processingDuration d) (results d) (annotations d) v
     (metrics d) (createdAt d) (updatedAt d).

(** [new Date(end) - new Date(start)]; a value that is not a date gives
    [NaN], which [JSON.stringify] writes as [null]. *)
Definition date_diff (e s : option json) : json :=
  match e, s with
  | Some (JNum a), Some (JNum b) => JNum (a - b)
  | _, _ => JNull
  end.

(** [vs.filter(v => v.occlusion && v.occlusion.isOccluded).length] *)
Fixpoint count_occluded (vs : list json) : res Z :=
  match vs with
  | [] => Ok 0%Z
  | v :: r =>
      match get_prop (Some v) "occlusion" with
      | Throw e => Throw e
      | Ok o =>
          let keep :=
            if truthy o then
              match get_prop o "isOccluded" with
              | Ok io => Ok (truthy io)
              | Throw e => Throw e
              end
            else Ok false in
          match keep with
          | Throw e => Throw e
          | Ok b => match count_occluded r with
                    | Ok n => Ok (if b then (n + 1)%Z else n)
                    | Throw e => Throw e
                    end
          end
      end
  end.

Definition set_prop (v : option json) (k : string) (x : json) : option json :=
  match v with
  | Some (JObj fs) => Some (JObj (obj_set fs k x))
  | other => other
  end.

Definition js_gt0 (v : option json) : bool :=
  match v with
  | Some (JNum q) => Qpos_b q
  | _ => false
  end.

(** The occlusion block of [save] (lines 97-105): the new [results]. *)
Definition recompute_occlusion (r : option json) : res (option json) :=
  if truthy r then
    match get_prop r "vehicles" with
    | Throw e => Throw e
    | Ok vs =>
        if truthy vs then
          match get_prop vs "length" with
          | Throw e => Throw e
          | Ok len =>
              if js_gt0 len then
                match as_array vs with
                | Throw e => Throw e
                | Ok l =>
                    match count_occluded l with
                    | Throw e => Throw e
                    | Ok occludedCount =>
                        let r1 := set_prop r "occludedVehicles" (JNum (inject_Z occludedCount)) in
                        Ok (set_prop r1 "occlusionPercentage"
                              (JNum ((inject_Z occludedCount / inject_Z (Z.of_nat (List.length l))) * 100)))
                    end
                end
              else Ok r
          end
        else Ok r
    end
  else Ok r.

(** The [detectionData] object built by [save]. *)
Definition detectionData (d : t) : obj :=
  [("userId", userId d); ("uploadId", uploadId d); ("status", status d);
   ("processingStartTime", processingStartTime d);
   ("processingEndTime", processingEndTime d);
   ("processingDuration", processingDuration d);
   ("results", results d); ("annotations", annotations d);
   ("errorDetails", errorDetails d); ("metrics", metrics d)].

(** The synchronous part of [save], before the data service is called. *)
Definition prepare (d : t) : res t :=
  let d1 := if truthy (processingStartTime d) && truthy (processingEndTime d)
            then set_duration d (Some (date_diff (processingEndTime d) (processingStartTime d)))
            else d in
  match recompute_occlusion (results d1) with
  | Ok r => Ok (set_results d1 r)
  | Throw e => Throw e
  end.

Definition save (d : t) : M t :=
  d1 <- lift (prepare d) ;;
  if truthy (id d1) then
    updatedData <- updateDetection (id d1) (detectionData d1) ;;
    match updatedData with
    | Some u => ret (assign d1 u)
    | None => ret d1
    end
  else
    newDetectionData <- createDetection (detectionData d1) ;;
    ret (assign d1 newDetectionData).

(** [Detection.findById(id)] *)
Definition findById (i : option json) : M (option t) :=
  detectionData <- getDetectionById i ;;
  ret (match detectionData with
       | Some v => if truthy (Some v) then Some (of_json v) else None
       | None => None
       end).

Definition is_terminal (s : string) : bool :=
  String.eqb s "completed" || String.eqb s "failed" || String.eqb s "cancelled".

(** [updateStatus(status, errorDetails = null)] *)
Definition updateStatus (d : t) (s : string) (ed : option json) : M t :=
  let d1 := set_status d (Some (JStr s)) in
  d2 <- (if String.eqb s "processing" && negb (truthy (processingStartTime d1)) then
           tm <- now ;; ret (set_start d1 (Some tm))
         else if is_terminal s && negb (truthy (processingEndTime d1)) then
           tm <- now ;; ret (set_end d1 (Some tm))
         else ret d1) ;;
  let d3 := if truthy ed then set_errorDetails d2 ed else d2 in
  save d3.

End Detection.

(** ** The background job ([processVehicleDetection] in [detectionRoutes.js]) *)

Module JobRunner.
Import DataService.

Section Job.

(** The analysis step: in the source a literal of mock results, in the
    specification an opaque [analyze] that returns a result or throws. *)
Variable analyze : res json.

Definition errorDetails_of (code : string) (message : option json) : json :=
  JObj (("code", JStr code) :: match message with
                               | Some m => [("message", m)]
                               | None => []
                               end).

Definition processVehicleDetection (detectionId : option json) : M unit :=
  try_catch
    (o <- Detection.findById detectionId ;;
     match o with
     | None => ret tt
     | Some detection =>
         st <- now ;;
         let detection := Detection.set_start
                            (Detection.set_status detection (Some (JStr "processing"))) (Some st) in
         detection <- Detection.save detection ;;
         _ <- sleep 5000%Z ;;
         mockResults <- lift analyze ;;
         en <- now ;;
         let detection := Detection.set_end
                            (Detection.set_status detection (Some (JStr "completed"))) (Some en) in
         let detection := Detection.set_results detection
              (Some (JObj (spread (to_fields (match Detection.results detection with
                                              | Some r => r | None => JNull end))
                                  (obj_of (to_fields mockResults))))) in
         _ <- Detection.save detection ;;
         ret tt
     end)
    (fun error =>
       o <- Detection.findById detectionId ;;
       match o with
       | None => ret tt
       | Some detection =>
           en <- now ;;
           let detection := Detection.set_end
                              (Detection.set_status detection (Some (JStr "failed"))) (Some en) in
           message <- lift (get_prop (Some error) "message") ;;
           let detection := Detection.set_errorDetails detection
                              (Some (errorDetails_of "PROCESSING_ERROR" message)) in
           _ <- Detection.save detection ;;
           ret tt
       end).

(** [setTimeout(async () => { try { await processVehicleDetection(id) }
    catch (error) { console.error(...) } }, 100)] *)
Definition background (detectionId : option json) : M unit :=
  _ <- sleep 100%Z ;;
  try_catch (processVehicleDetection detectionId) (fun _ => ret tt).

End Job.

End JobRunner.

(** ** Concurrent [createDetection] calls

    Each call is a task that first awaits [getDetections()] and later, in a
    continuation, computes the new record and awaits [writeData].  A schedule
    is the order in which the event loop resumes the tasks. *)

Module Concurrent.
Import DataService.

Inductive task : Type :=
| TStart (draft : obj)
| TLoaded (draft : obj) (snapshot : json)
| TDone (r : res json).

Definition catch_res {A} (m : M A) : M (res A) :=
  fun w => match m w with
           | (r, w') => (Ok r, w')
           end.

Definition step_task (tk : task) : M task :=
  match tk with
  | TStart d => v <- getDetections ;; ret (TLoaded d v)
  | TLoaded d v => r <- catch_res (createDetection_cont d v) ;; ret (TDone r)
  | TDone r => ret (TDone r)
  end.

Fixpoint replace_nth_t (ts : list task) (i : nat) (x : task) : list task :=
  match ts, i with
  | [], _ => []
  | _ :: r, O => x :: r
  | y :: r, S i' => y :: replace_nth_t r i' x
  end.

Fixpoint run (sched : list nat) (ts : list task) : M (list task) :=
  match sched with
  | [] => ret ts
  | i :: rest =>
      match nth_error ts i with
      | None => run rest ts
      | Some tk => tk' <- step_task tk ;; run rest (replace_nth_t ts i tk')
      end
  end.

(** A task that has not failed, and whose snapshot, if any, is an array. *)
Definition task_ok (tk : task) : bool :=
  match tk with
  | TStart _ => true
  | TLoaded _ (JArr _) => true
  | TLoaded _ _ => false
  | TDone (Ok _) => true
  | TDone (Throw _) => false
  end.

Definition is_done (tk : task) : bool :=
  match tk with TDone _ => true | _ => false end.

Definition done_success (tk : task) : bool :=
  match tk with TDone (Ok _) => true | _ => false end.

Definition dets_ok (f : file) : bool :=
  match f with
  | FileOk (JArr _) | FileBad => true
  | FileOk _ => false
  end.

End Concurrent.

(** ** Statistics ([getStats] and its helpers in [dataService.js]) *)

Module Stats.
Import DataService.

Definition N_string (n : N) : string := uint_string (N.to_uint n).

(** [x.toFixed(2)] on the exact value [x] of a double: [n] is the integer closest to
    [100 * |x|], the larger one on a tie; the result is the decimal digits of
    [n] with a point before the last two. *)
Definition toFixed2 (x : Q) : string :=
  let a := Z.abs (Qnum x) in
  let b := Zpos (Qden x) in
  let n := ((200 * a + b) / (2 * b))%Z in
  let ip := (n / 100)%Z in
  let fp := (n mod 100)%Z in
  (if Z.ltb (Qnum x) 0 then "-" else "")
    ++ N_string (Z.to_N ip) ++ "."
    ++ N_string (Z.to_N (fp / 10)) ++ N_string (Z.to_N (fp mod 10)).

(** [String(v)] as an object key, for the values vehicle types take: strings,
    [undefined], [null], booleans, integers and plain objects.  Arrays and
    non-integer numbers get a placeholder key ([String] of them is not
    modelled). *)
Definition js_key (v : option json) : string :=
  match v with
  | None => "undefined"
  | Some JNull => "null"
  | Some (JBool true) => "true"
  | Some (JBool false) => "false"
  | Some (JStr s) => s
  | Some (JNum q) =>
      if Pos.eqb (Qden q) 1 then
        (if Z.ltb (Qnum q) 0 then "-" else "") ++ N_string (Z.to_N (Z.abs (Qnum q)))
      else "[number]"
  | Some (JObj _) => "[object Object]"
  | Some (JArr _) => "[array]"
  end.

(** The methods of [Object.prototype], which a plain [{}] inherits. *)
Definition proto_methods : list string :=
  ["__defineGetter__"; "__defineSetter__"; "hasOwnProperty"; "__lookupGetter__";
   "__lookupSetter__"; "isPrototypeOf"; "propertyIsEnumerable"; "toString"; "valueOf";
   "toLocaleString"].

(** [String(o[k])] for a key [k] that a plain object [o] inherits from
    [Object.prototype]: the built-in functions print as native code, and
    [__proto__] reads [Object.prototype] itself. *)
Definition proto_string (k : string) : option string :=
  if String.eqb k "__proto__" then Some "[object Object]"
  else if String.eqb k "constructor" then Some "function Object() { [native code] }"
  else if existsb (String.eqb k) proto_methods then Some ("function " ++ k ++ "() { [native code] }")
  else None.

(** [v + 1] for the values a count takes: numbers add, strings concatenate. *)
Definition js_add1 (v : option json) : json :=
  match v with
  | Some (JNum q) => JNum (q + 1)
  | Some (JStr s) => JStr (s ++ "1")
  | Some (JBool b) => JNum (if b then 2 else 1)
  | _ => JNum 1
  end.

(** [vehicleTypes[vehicle.type] = (vehicleTypes[vehicle.type] || 0) + 1]
    over one detection's vehicles.  A key missing from the object reads its
    inherited value, if any; assigning a string to [__proto__] goes to the
    prototype setter, which ignores it: no key is created. *)
Fixpoint count_types (acc : list (string * json)) (vs : list json) : res (list (string * json)) :=
  match vs with
  | [] => Ok acc
  | v :: r =>
      match get_prop (Some v) "type" with
      | Throw e => Throw e
      | Ok ty =>
          let k := js_key ty in
          let next := match obj_get acc k with
                      | Some cur => js_add1 (js_or (Some cur) (Some (JNum 0)))
                      | None => match proto_string k with
                                | Some str => JStr (str ++ "1")
                                | None => JNum (0 + 1)
                                end
                      end in
          count_types (if String.eqb k "__proto__" then acc else obj_set acc k next) r
      end
  end.

Fixpoint calculateVehicleStats_aux (acc : list (string * json)) (ds : list json)
  : res (list (string * json)) :=
  match ds with
  | [] => Ok acc
  | d :: r =>
      match get_prop (Some d) "vehicles" with
      | Throw e => Throw e
      | Ok vs =>
          if truthy vs then
            match as_array vs with
            | Throw e => Throw e
            | Ok l => match count_types acc l with
                      | Ok acc' => calculateVehicleStats_aux acc' r
                      | Throw e => Throw e
                      end
            end
          else calculateVehicleStats_aux acc r
      end
  end.

Definition calculateVehicleStats (ds : list json) : res json :=
  match calculateVehicleStats_aux [] ds with
  | Ok fs => Ok (JObj fs)
  | Throw e => Throw e
  end.

(** The inner [forEach]: [totalVehicles++; if (vehicle.occluded) occludedVehicles++]. *)
Fixpoint count_vehicles (tot occ : Z) (vs : list json) : res (Z * Z) :=
  match vs with
  | [] => Ok (tot, occ)
  | v :: r =>
      match get_prop (Some v) "occluded" with
      | Throw e => Throw e
      | Ok o => count_vehicles (tot + 1)%Z (if truthy o then (occ + 1)%Z else occ) r
      end
  end.

Fixpoint occlusion_counts (tot occ : Z) (ds : list json) : res (Z * Z) :=
  match ds with
  | [] => Ok (tot, occ)
  | d :: r =>
      match get_prop (Some d) "vehicles" with
      | Throw e => Throw e
      | Ok vs =>
          if truthy vs then
            match as_array vs with
            | Throw e => Throw e
            | Ok l => match count_vehicles tot occ l with
                      | Ok (tot', occ') => occlusion_counts tot' occ' r
                      | Throw e => Throw e
                      end
            end
          else occlusion_counts tot occ r
      end
  end.

(** [x * 2^e] for an integer [x]. *)
Definition scale2 (m e : Z) : Q :=
  if Z.leb 0 e then inject_Z (m * 2 ^ e) else Qmake m (Z.to_pos (2 ^ (- e))).

(** The IEEE-754 double nearest to [q] (ties to even), for values in the
    finite range: with [e] the exponent of the last significand bit (at
    least [-1074]), the significand is [q / 2^e] rounded to an integer. *)
Definition round_double (q : Q) : Q :=
  let a := Z.abs (Qnum q) in
  let b := Zpos (Qden q) in
  let nu e := if Z.leb 0 e then a else (a * 2 ^ (- e))%Z in
  let de e := if Z.leb 0 e then (b * 2 ^ e)%Z else b in
  let e0 := (Z.log2 a - Z.log2 b - 52)%Z in
  let e1 := if Z.ltb (nu e0) (2 ^ 52 * de e0) then (e0 - 1)%Z else e0 in
  let e := Z.max e1 (-1074) in
  let m := (nu e / de e)%Z in
  let r := (nu e mod de e)%Z in
  let m' := if Z.ltb (de e) (2 * r) || (Z.eqb (2 * r) (de e) && Z.odd m) then (m + 1)%Z else m in
  if Z.eqb a 0 then 0
  else if Z.ltb (Qnum q) 0 then - scale2 m' e else scale2 m' e.

(** [totalVehicles > 0 ? (occludedVehicles / totalVehicles * 100).toFixed(2) : 0]:
    the counts are exact doubles, the division and the product are rounded
    to doubles, and [toFixed] works on the exact value of the result. *)
Definition occlusionRate (tot occ : Z) : json :=
  if Z.ltb 0 tot
  then JStr (toFixed2 (round_double (round_double (inject_Z occ / inject_Z tot) * 100)))
  else JNum 0.

Definition calculateOcclusionStats (ds : list json) : res json :=
  match occlusion_counts 0%Z 0%Z ds with
  | Throw e => Throw e
  | Ok (tot, occ) =>
      Ok (JObj [("totalVehicles", JNum (inject_Z tot));
                ("occludedVehicles", JNum (inject_Z occ));
                ("occlusionRate", occlusionRate tot occ)])
  end.

Fixpoint filter_m (cb : json -> res bool) (l : list json) : res (list json) :=
  match l with
  | [] => Ok []
  | x :: r => match cb x with
              | Throw e => Throw e
              | Ok b => match filter_m cb r with
                        | Ok r' => Ok (if b then x :: r' else r')
                        | Throw e => Throw e
                        end
              end
  end.

Definition has_userId (userId : option json) (x : json) : res bool :=
  match get_prop (Some x) "userId" with
  | Ok v => Ok (strict_eq v userId)
  | Throw e => Throw e
  end.

(** [arr.slice(-10)] *)
Definition last10 (l : list json) : list json := skipn (List.length l - 10) l.

(** [getStats(userId = null)]; the collections are used as arrays. *)
Definition getStats (userId : option json) : M json :=
  uploads <- readData Uploads ;;
  detections <- readData Detections ;;
  ul <- lift (as_array (Some uploads)) ;;
  dl <- lift (as_array (Some detections)) ;;
  userUploads <- lift (if truthy userId then filter_m (has_userId userId) ul else Ok ul) ;;
  userDetections <- lift (if truthy userId then filter_m (has_userId userId) dl else Ok dl) ;;
  vehicleStats <- lift (calculateVehicleStats userDetections) ;;
  occlusionStats <- lift (calculateOcclusionStats userDetections) ;;
  ret (JObj [("totalUploads", JNum (inject_Z (Z.of_nat (List.length userUploads))));
             ("totalDetections", JNum (inject_Z (Z.of_nat (List.length userDetections))));
             ("recentActivity", JArr (rev (last10 userUploads)));
             ("vehicleStats", vehicleStats);
             ("occlusionStats", occlusionStats)]).

End Stats.

(** ** The other operations of [DataService] *)

Module DataServiceOps.
Import DataService Stats.

Definition getUsers : M json := readData Users.
Definition getUploads : M json := readData Uploads.

(** [x => x[k] === v] *)
Definition has_field (k : string) (v : option json) (x : json) : res bool :=
  match get_prop (Some x) k with
  | Ok y => Ok (strict_eq y v)
  | Throw e => Throw e
  end.

(** [x => x.id !== id] *)
Definition lacks_id (id : option json) (x : json) : res bool :=
  match has_id id x with
  | Ok b => Ok (negb b)
  | Throw e => Throw e
  end.

(** [(await readData(file)).find(cb)] *)
Definition find_in (c : coll) (cb : json -> res bool) : M (option json) :=
  records <- readData c ;;
  l <- lift (as_array (Some records)) ;;
  lift (find_m cb l).

Definition getUserById (id : option json) := find_in Users (has_id id).
Definition getUserByEmail (email : option json) := find_in Users (has_field "email" email).
Definition getUploadById (id : option json) := find_in Uploads (has_id id).

(** [(await readData(file)).filter(cb)] *)
Definition filter_in (c : coll) (cb : json -> res bool) : M (list json) :=
  records <- readData c ;;
  l <- lift (as_array (Some records)) ;;
  lift (filter_m cb l).

Definition getUploadsByUserId (userId : option json) :=
  filter_in Uploads (has_field "userId" userId).
Definition getDetectionsByUserId (userId : option json) :=
  filter_in Detections (has_field "userId" userId).
Definition getDetectionsByUploadId (uploadId : option json) :=
  filter_in Detections (has_field "uploadId" uploadId).

(** [createUser] and [createUpload]: the code of [createDetection] over
    their own file. *)
Definition create_in (c : coll) (data : obj) : M json :=
  records <- readData c ;;
  i <- uuidv4 ;;
  cr <- now ;;
  u <- now ;;
  let newRecord :=
    JObj (obj_set (obj_set (spread [("id", i)] data) "createdAt" cr) "updatedAt" u) in
  l <- lift (as_array (Some records)) ;;
  _ <- writeData c (JArr (l ++ [newRecord])) ;;
  ret newRecord.

Definition createUser := create_in Users.
Definition createUpload := create_in Uploads.

(** [deleteUser], [deleteUpload] and [deleteDetection]. *)
Definition delete_in (c : coll) (id : option json) : M bool :=
  records <- readData c ;;
  l <- lift (as_array (Some records)) ;;
  filtered <- lift (filter_m (lacks_id id) l) ;;
  _ <- writeData c (JArr filtered) ;;
  ret (Nat.ltb (List.length filtered) (List.length l)).

Definition deleteUser := delete_in Users.
Definition deleteUpload := delete_in Uploads.
Definition deleteDetection := delete_in Detections.

End DataServiceOps.

(** ** The other members of the [Detection] model *)

Module DetectionOps.
Import DataService DataServiceOps Stats Detection.

Definition set_annotations (d : t) (v : option json) : t :=
  mk (id d) (userId d) (uploadId d) (status d) (processingStartTime d)
     (processingEndTime d) (processingDuration d) (results d) v (errorDetails d)
     (metrics d) (createdAt d) (updatedAt d).

(** [remove()] *)
Definition remove (d : t) : M bool :=
  if truthy (id d) then deleteDetection (id d) else ret false.

(** [addAnnotation(annotation)]: the class body is strict code, so setting
    [timestamp] on a primitive throws; on an array the property is not
    written out by [JSON.stringify]. *)
Definition addAnnotation (d : t) (annotation : json) : M t :=
  ts <- now ;;
  ann <- lift (match annotation with
               | JObj fs => Ok (JObj (obj_set fs "timestamp" ts))
               | JArr l => Ok (JArr l)
               | _ => Throw (type_error "Cannot create property 'timestamp'")
               end) ;;
  l <- lift (as_array (annotations d)) ;;
  save (set_annotations d (Some (JArr (l ++ [ann])))).








(** [`${n}`] for an integer [n]. *)
Definition Z_string (z : Z) : string :=
  (if Z.ltb z 0 then "-" else "") ++ N_string (Z.to_N (Z.abs z)).

(** [get processingTimeFormatted()] for a numeric [processingDuration]
    ([None]: a truthy duration that is not a number, whose conversion by
    [/] is not modelled).  [%] is the remainder, with the dividend's sign. *)
Definition processingTimeFormatted (d : t) : option (option string) :=
  if negb (truthy (processingDuration d)) then Some None
  else match processingDuration d with
       | Some (JNum q) =>
           let seconds := Qfloor (q / 1000) in
           let minutes := Qfloor (inject_Z seconds / 60) in
           let hours := Qfloor (inject_Z minutes / 60) in
           Some (Some
             (if Z.ltb 0 hours then
                Z_string hours ++ "h " ++ Z_string (Z.rem minutes 60) ++ "m "
                  ++ Z_string (Z.rem seconds 60) ++ "s"
              else if Z.ltb 0 minutes then
                Z_string minutes ++ "m " ++ Z_string (Z.rem seconds 60) ++ "s"
              else Z_string seconds ++ "s"))
       | _ => None
       end.

End DetectionOps.

(** ** The job with the source's mock results *)

Module MockJob.
Import JobRunner.

Definition vehicle (i ty : string) (conf : Q) (x y wd ht : Q) (occ : bool)
    (lvl : string) (pct : Q) (by_ : option (list json)) (color size : string) (ori : Q) : json :=
  JObj [("id", JStr i); ("type", JStr ty); ("confidence", JNum conf);
        ("boundingBox", JObj [("x", JNum x); ("y", JNum y); ("width", JNum wd);
                              ("height", JNum ht)]);
        ("occlusion", JObj ([("isOccluded", JBool occ); ("occlusionLevel", JStr lvl);
                             ("occlusionPercentage", JNum pct)]
                            ++ match by_ with
                               | Some l => [("occludedBy", JArr l)]
                               | None => []
                               end));
        ("features", JObj [("color", JStr color); ("size", JStr size);
                           ("orientation", JNum ori)])].

(** The [mockResults] literal of [processVehicleDetection]. *)
Definition mockResults : json :=
  JObj [("totalVehicles", JNum 3); ("occludedVehicles", JNum 1);
        ("occlusionPercentage", JNum (3333 # 100));
        ("vehicles", JArr [vehicle "vehicle_1" "car" (95 # 100) 100 150 200 150 false "none" 0
                             None "blue" "medium" 0;
                           vehicle "vehicle_2" "truck" (88 # 100) 350 120 300 200 true "partial" 35
                             (Some [JStr "vehicle_3"]) "white" "large" 15;
                           vehicle "vehicle_3" "car" (92 # 100) 500 180 180 140 false "none" 0
                             None "red" "medium" (-10)]);
        ("processingMetadata", JObj [("modelVersion", JStr "v1.0.0");
                                     ("algorithm", JStr "YOLO + Custom Occlusion Analysis");
                                     ("computeTime", JNum 4850); ("memoryUsage", JNum 1024)])].

(** The job as the source runs it: the analysis step yields [mockResults]. *)
Definition background_src (detectionId : option json) : M unit :=
  background (Ok mockResults) detectionId.

End MockJob.

(** ** Properties as the specification states them, and concrete inputs *)

Module SpecProps.
Import DataService.

(** The records of the Detections file, when it holds an array. *)
Definition stored_detections (w : World) : list json :=
  match w_dets w with
  | FileOk (JArr l) => l
  | _ => []
  end.

Definition results_of (r : json) : option json := obj_get (to_fields r) "results".

(** The specification's invariant on a [results] object:
    [occlusionPercentage == occludedVehicles / totalVehicles * 100], and [0]
    when [totalVehicles == 0]. *)
Definition spec_occlusion_invariant (r : json) : bool :=
  match obj_get (to_fields r) "totalVehicles", obj_get (to_fields r) "occludedVehicles",
        obj_get (to_fields r) "occlusionPercentage" with
  | Some (JNum tot), Some (JNum occ), Some (JNum pct) =>
      if Qeq_bool tot 0 then Qeq_bool pct 0 else Qeq_bool pct ((occ / tot) * 100)
  | _, _, _ => false
  end.

(** What [save] stores as [results] when the instance's [results] is the
    object [fs] whose [vehicles] list is [vs] with [c] occluded vehicles. *)
Definition saved_results (fs : list (string * json)) (vs : list json) (c : Z)
  : list (string * json) :=
  match vs with
  | [] => fs
  | _ => obj_set (obj_set fs "occludedVehicles" (JNum (inject_Z c)))
                 "occlusionPercentage"
                 (JNum ((inject_Z c / inject_Z (Z.of_nat (List.length vs))) * 100))
  end.

Definition empty_world : World :=
  mkWorld (FileOk (JArr [])) (FileOk (JArr [])) (FileOk (JArr [])) 1000%Z 0 [].

(** [new Detection({ userId, uploadId, results })] whose caller-supplied
    statistics disagree with its empty vehicle list. *)
Definition stale_detection : Detection.t :=
  Detection.of_json
    (JObj [("userId", JStr "user-1"); ("uploadId", JStr "upload-1");
           ("results", JObj [("totalVehicles", JNum 2); ("occludedVehicles", JNum 1);
                             ("occlusionPercentage", JNum 70); ("vehicles", JArr [])])]).

(** A Detection that reached [completed], stored in the Detections file. *)
Definition completed_record : json :=
  JObj [("id", JStr "det-1"); ("userId", JStr "user-1"); ("uploadId", JStr "upload-1");
        ("status", JStr "completed"); ("processingStartTime", JNum 100);
        ("processingEndTime", JNum 5100); ("processingDuration", JNum 5000)].

Definition completed_world : World :=
  mkWorld (FileOk (JArr [])) (FileOk (JArr [])) (FileOk (JArr [completed_record])) 9000%Z 0 [].

Definition stored_status (r : json) : option json := obj_get (to_fields r) "status".

(** The records of any collection's file, when it holds an array. *)
Definition stored_in (w : World) (c : coll) : list json :=
  match get_file w c with
  | FileOk (JArr l) => l
  | _ => []
  end.

(** The value a draft object literal gives to [k]: its last occurrence. *)
Definition draft_value (o : obj) (k : string) : option json :=
  match obj_lookup (rev o) k with
  | Some ov => ov
  | None => None
  end.

Definition is_success {A} (r : res A) : bool :=
  match r with Ok _ => true | Throw _ => false end.

(** A Detection draft for [upload-1], as the analyze request builds it. *)
Definition upload_draft : obj :=
  [("userId", Some (JStr "user-1")); ("uploadId", Some (JStr "upload-1"));
   ("status", Some (JStr "pending"))].

Definition references_upload (u : string) (r : json) : bool :=
  strict_eq (obj_get (to_fields r) "uploadId") (Some (JStr u)).

(** A world whose Detections file cannot be parsed. *)
Definition corrupt_world : World :=
  mkWorld (FileOk (JArr [])) (FileOk (JArr [])) FileBad 1000%Z 0 [].

(** A world whose next write of a file fails after truncating it. *)
Definition failing_write_world : World :=
  mkWorld (FileOk (JArr [])) (FileOk (JArr [])) (FileOk (JArr [completed_record]))
          1000%Z 0 [WFailTruncate].

(** A draft that carries its own [id] and [createdAt]. *)
Definition client_id_draft : obj :=
  [("id", Some (JStr "client-id")); ("uploadId", Some (JStr "upload-1"));
   ("createdAt", Some (JNum 1))].

(** A patch that carries [id] and [createdAt] fields. *)
Definition id_patch : obj :=
  [("id", Some (JStr "other-id")); ("createdAt", Some (JNum 1)); ("status", Some (JStr "failed"))].

(** A Detection waiting for its background job. *)
Definition pending_record : json :=
  JObj [("id", JStr "det-1"); ("userId", JStr "user-1"); ("uploadId", JStr "upload-1");
        ("status", JStr "pending")].

Definition pending_world : World :=
  mkWorld (FileOk (JArr [])) (FileOk (JArr [])) (FileOk (JArr [pending_record])) 1000%Z 0 [].



(** The vehicles listed in the top-level [vehicles] arrays of the records,
    and whether a vehicle has a truthy top-level [occluded] field. *)
Definition top_vehicles (ds : list json) : list json :=
  flat_map (fun d => match obj_get (to_fields d) "vehicles" with
                     | Some (JArr l) => l
                     | _ => []
                     end) ds.

Definition top_occluded (v : json) : bool := truthy (obj_get (to_fields v) "occluded").

Definition is_digit (c : ascii) : bool :=
  Nat.leb 48 (nat_of_ascii c) && Nat.leb (nat_of_ascii c) 57.

(** Digits, then a point, then exactly two digits. *)
Fixpoint digits_point_two (s : string) : bool :=
  match s with
  | String "." (String a (String b EmptyString)) => is_digit a && is_digit b
  | String c r => is_digit c && digits_point_two r
  | EmptyString => false
  end.

(** A two-decimal string: at least one digit, a point and two digits. *)
Definition two_decimals (s : string) : bool :=
  match s with
  | String c r => is_digit c && digits_point_two r
  | EmptyString => false
  end.

(** [x.id === i], read from a stored record. *)
Definition id_is (i : option json) (x : json) : bool := strict_eq (obj_get (to_fields x) "id") i.


(** An upload record of [user-1]. *)
Definition upload_record (n : nat) : json :=
  JObj [("id", JStr ("upload-" ++ nat_string n)); ("userId", JStr "user-1")].

End SpecProps.

(** ** Object and list lemmas *)

Module ObjFacts.
Import DataService.

Lemma obj_get_set fs k v k' :
  obj_get (obj_set fs k v) k' = if String.eqb k' k then Some v else obj_get fs k'.
Proof.
  induction fs as [|[k0 v0] r IH]; simpl.
  - destruct (String.eqb k' k); reflexivity.
  - destruct (String.eqb_spec k k0) as [->|Hne]; simpl.
    + destruct (String.eqb k' k0); reflexivity.
    + rewrite IH.
      destruct (String.eqb k' k0) eqn:E1, (String.eqb k' k) eqn:E2; auto.
      apply String.eqb_eq in E1, E2. subst. contradiction.
Qed.

Lemma obj_get_del fs k k' :
  obj_get (obj_del fs k) k' = if String.eqb k' k then None else obj_get fs k'.
Proof.
  induction fs as [|[k0 v0] r IH]; simpl.
  - destruct (String.eqb k' k); reflexivity.
  - destruct (String.eqb_spec k k0) as [->|Hne]; simpl.
    + rewrite IH. destruct (String.eqb k' k0); reflexivity.
    + rewrite IH.
      destruct (String.eqb k' k0) eqn:E1, (String.eqb k' k) eqn:E2; auto.
      apply String.eqb_eq in E1, E2. subst. contradiction.
Qed.

Lemma obj_get_put fs k ov k' :
  obj_get (obj_put fs k ov) k' = if String.eqb k' k then ov else obj_get fs k'.
Proof.
  destruct ov; simpl; [apply obj_get_set | apply obj_get_del].
Qed.

Lemma obj_lookup_app (l1 l2 : obj) k :
  obj_lookup (l1 ++ l2)%list k =
  match obj_lookup l1 k with Some x => Some x | None => obj_lookup l2 k end.
Proof.
  induction l1 as [|[k0 v0] r IH]; simpl; [reflexivity|].
  destruct (String.eqb k k0); [reflexivity | exact IH].
Qed.

(** The value a spread leaves under [k]: the last occurrence of [k] in
    the source object, else the target's. *)
Lemma spread_get fs src k :
  obj_get (spread fs src) k =
  match obj_lookup (rev src) k with Some ov => ov | None => obj_get fs k end.
Proof.
  revert fs. induction src as [|[k0 ov] src IH]; intros fs; [reflexivity|].
  unfold spread. simpl fold_left. fold (spread (obj_put fs k0 ov) src).
  rewrite IH. simpl rev. rewrite obj_lookup_app.
  destruct (obj_lookup (rev src) k); [reflexivity|].
  simpl. rewrite obj_get_put. destruct (String.eqb k k0); reflexivity.
Qed.


Lemma findIndex_find cb l k :
  findIndex_m cb l = Ok (Some k) -> find_m cb l = Ok (Some (nth k l JNull)).
Proof.
  revert k. induction l as [|x r IH]; intros k; simpl; [discriminate|].
  destruct (cb x) as [[|]|e]; intros H.
  - inversion H; reflexivity.
  - destruct (findIndex_m cb r) as [[i|]|e] eqn:E; inversion H; subst.
    now apply IH.
  - discriminate.
Qed.

Lemma findIndex_lt cb l k : findIndex_m cb l = Ok (Some k) -> (k < List.length l)%nat.
Proof.
  revert k. induction l as [|x r IH]; intros k; simpl; [discriminate|].
  destruct (cb x) as [[|]|e]; intros H.
  - inversion H; lia.
  - destruct (findIndex_m cb r) as [[i|]|e] eqn:E; inversion H; subst.
    specialize (IH i eq_refl). lia.
  - discriminate.
Qed.

Lemma findIndex_replace cb l k x :
  findIndex_m cb l = Ok (Some k) -> cb x = Ok true ->
  findIndex_m cb (replace_nth l k x) = Ok (Some k).
Proof.
  revert k. induction l as [|y r IH]; intros k H Hx; simpl in H; [discriminate|].
  destruct (cb y) as [[|]|e] eqn:Ey.
  - inversion H; subst. simpl. now rewrite Hx.
  - destruct (findIndex_m cb r) as [[i|]|e] eqn:E; inversion H; subst.
    simpl. rewrite Ey. now rewrite (IH i eq_refl Hx).
  - discriminate.
Qed.

Lemma nth_replace l k x : (k < List.length l)%nat -> nth k (replace_nth l k x) JNull = x.
Proof.
  revert k. induction l as [|y r IH]; intros [|k] H; simpl in *; try lia; auto.
  apply IH. lia.
Qed.

Lemma replace_replace l k x y : replace_nth (replace_nth l k x) k y = replace_nth l k y.
Proof.
  revert k. induction l as [|z r IH]; intros [|k]; simpl; auto. now rewrite IH.
Qed.

End ObjFacts.

(** ** Running [save] and [findById] on a readable store *)

Module SaveFacts.
Import DataService ObjFacts.

Lemma prepare_fields d d' :
  Detection.prepare d = Ok d' ->
  Detection.id d' = Detection.id d /\ Detection.status d' = Detection.status d /\
  Detection.processingStartTime d' = Detection.processingStartTime d /\
  Detection.processingEndTime d' = Detection.processingEndTime d /\
  Detection.errorDetails d' = Detection.errorDetails d /\
  Detection.recompute_occlusion (Detection.results d) = Ok (Detection.results d').
Proof.
  unfold Detection.prepare.
  destruct (truthy (Detection.processingStartTime d) && truthy (Detection.processingEndTime d));
    simpl; destruct (Detection.recompute_occlusion (Detection.results d)) eqn:E;
    intros H; inversion H; subst; simpl; repeat split; auto.
Qed.

(** [save] of a Detection whose record is in the store: the record is
    replaced in place by the spread of the old record and [detectionData]. *)
Lemma save_update d d' w l k :
  Detection.prepare d = Ok d' ->
  truthy (Detection.id d) = true ->
  w_dets w = FileOk (JArr l) -> w_faults w = [] ->
  findIndex_m (has_id (Detection.id d)) l = Ok (Some k) ->
  let r := JObj (obj_set (spread (to_fields (nth k l JNull)) (Detection.detectionData d'))
                         "updatedAt" (JNum (inject_Z (w_clock w)))) in
  Detection.save d w =
  (Ok (Detection.assign d' r), set_file w Detections (FileOk (JArr (replace_nth l k r)))).
Proof.
  intros Hp Ht Hd Hf Hi r.
  destruct (prepare_fields d d' Hp) as [Hid _].
  destruct w as [us up ds clk uu fl]; simpl in Hd, Hf; subst ds fl.
  unfold Detection.save, bind, lift. rewrite Hp. rewrite Hid, Ht.
  unfold updateDetection, update_in, readData, bind, lift. simpl.
  rewrite Hi. reflexivity.
Qed.

(** [save] of a Detection without an identifier appends a new record. *)
Lemma save_create d d' w l :
  Detection.prepare d = Ok d' ->
  truthy (Detection.id d) = false ->
  w_dets w = FileOk (JArr l) -> w_faults w = [] ->
  let i := JStr ("uuid-" ++ nat_string (w_uuid w)) in
  let t := JNum (inject_Z (w_clock w)) in
  let r := JObj (obj_set (obj_set (spread [("id", i)] (Detection.detectionData d')) "createdAt" t) "updatedAt" t) in
  Detection.save d w =
  (Ok (Detection.assign d' r),
   mkWorld (w_users w) (w_uploads w) (FileOk (JArr (l ++ [r])%list)) (w_clock w) (S (w_uuid w)) []).
Proof.
  intros Hp Ht Hd Hf i t r.
  destruct (prepare_fields d d' Hp) as [Hid _].
  destruct w as [us up ds clk uu fl]; simpl in Hd, Hf; subst ds fl.
  unfold Detection.save, bind, lift. rewrite Hp. rewrite Hid, Ht.
  reflexivity.
Qed.

Lemma findById_found w l k i fs :
  w_dets w = FileOk (JArr l) ->
  findIndex_m (has_id i) l = Ok (Some k) ->
  nth k l JNull = JObj fs ->
  Detection.findById i w = (Ok (Some (Detection.of_json (JObj fs))), w).
Proof.
  intros Hd Hi Hn.
  unfold Detection.findById, getDetectionById, getDetections, readData, bind, lift, ret.
  destruct w as [us up ds clk uu fl]; simpl in Hd; subst ds. simpl.
  rewrite (findIndex_find _ _ _ Hi), Hn. reflexivity.
Qed.

(** The fields of the record written by [save] on the update path. *)
Lemma updated_get base d u k :
  k <> "updatedAt" ->
  obj_get (obj_set (spread base (Detection.detectionData d)) "updatedAt" u) k =
  match obj_lookup (rev (Detection.detectionData d)) k with
  | Some ov => ov
  | None => obj_get base k
  end.
Proof.
  intros Hk. rewrite obj_get_set.
  destruct (String.eqb_spec k "updatedAt"); [contradiction|].
  apply spread_get.
Qed.

End SaveFacts.

(** ** C1: derived occlusion statistics on [save] *)

Module OcclusionOnSave.
Import DataService ObjFacts SaveFacts SpecProps.

Lemma Qpos_b_succ n : Qpos_b (inject_Z (Z.of_nat (S n))) = true.
Proof.
  unfold Qpos_b. destruct (Qle_bool (inject_Z (Z.of_nat (S n))) 0) eqn:E; [|reflexivity].
  apply Qle_bool_iff in E. unfold Qle in E. simpl in E. lia.
Qed.

Lemma recompute_saved fs vs c :
  (obj_get fs "vehicles" = Some (JArr vs) \/ (obj_get fs "vehicles" = None /\ vs = [])) ->
  Detection.count_occluded vs = Ok c ->
  Detection.recompute_occlusion (Some (JObj fs)) = Ok (Some (JObj (saved_results fs vs c))).
Proof.
  intros [Hv | [Hv ->]] Hc; unfold Detection.recompute_occlusion;
    cbn -[Detection.count_occluded Qpos_b obj_set]; rewrite Hv;
    cbn -[Detection.count_occluded Qpos_b obj_set]; [|reflexivity].
  destruct vs as [|v vs']; [reflexivity|].
  change (List.length (v :: vs')) with (S (List.length vs')).
  rewrite Qpos_b_succ. rewrite Hc. reflexivity.
Qed.

Lemma prepare_ok d r :
  Detection.recompute_occlusion (Detection.results d) = Ok r ->
  exists d', Detection.prepare d = Ok d' /\ Detection.results d' = r.
Proof.
  intros H. unfold Detection.prepare.
  destruct (truthy (Detection.processingStartTime d) && truthy (Detection.processingEndTime d));
    simpl; rewrite H; eexists; split; reflexivity.
Qed.

Lemma detectionData_results d :
  obj_lookup (rev (Detection.detectionData d)) "results" = Some (Detection.results d).
Proof. reflexivity. Qed.

Lemma last_app_one (l : list json) x : last (l ++ [x])%list JNull = x.
Proof.
  induction l as [|y r IH]; [reflexivity|].
  simpl. destruct (r ++ [x])%list eqn:E; [destruct r; discriminate | exact IH].
Qed.

(** C1 (claim as stated, refuted): after [save] every stored record
    satisfies [occlusionPercentage == occludedVehicles / totalVehicles * 100].
    A Detection whose caller-supplied statistics are [2] vehicles, [1]
    occluded, [70] percent, with an empty vehicle list, is stored unchanged,
    and [70] is not [1 / 2 * 100]. *)
Lemma C1_stale_stats_kept :
  forallb (fun r => match results_of r with
                    | Some rs => spec_occlusion_invariant rs
                    | None => true
                    end)
          (stored_detections (snd (Detection.save stale_detection empty_world))) = false.
Proof. vm_compute. reflexivity. Qed.

(** C1 (amended): when the instance's [results] is an object whose
    [vehicles] is a non-empty array, [save] stores [occludedVehicles] as the
    number of vehicles with a truthy [occlusion.isOccluded] and
    [occlusionPercentage] as that number over the array's length times 100;
    [totalVehicles] and every other field of [results] are stored as
    supplied, and with a missing or empty [vehicles] the whole [results] is
    stored as supplied.  This holds on both paths of [save]: the update of
    the record with the instance's identifier, and the creation of a new
    record for an instance without one. *)
Theorem C1_save_occlusion_fields (d : Detection.t) (fs : list (string * json))
    (vs : list json) (c : Z) (w : World) (l : list json) :
  Detection.results d = Some (JObj fs) ->
  (obj_get fs "vehicles" = Some (JArr vs) \/ (obj_get fs "vehicles" = None /\ vs = [])) ->
  Detection.count_occluded vs = Ok c ->
  w_dets w = FileOk (JArr l) -> w_faults w = [] ->
  (forall k, truthy (Detection.id d) = true ->
     findIndex_m (has_id (Detection.id d)) l = Ok (Some k) ->
     results_of (nth k (stored_detections (snd (Detection.save d w))) JNull)
       = Some (JObj (saved_results fs vs c))) /\
  (truthy (Detection.id d) = false ->
     results_of (last (stored_detections (snd (Detection.save d w))) JNull)
       = Some (JObj (saved_results fs vs c))).
Proof.
  intros Hr Hv Hc Hd Hf.
  assert (Hrec := recompute_saved fs vs c Hv Hc). rewrite <- Hr in Hrec.
  destruct (prepare_ok d _ Hrec) as [d' [Hp Hr']].
  split.
  - intros k Ht Hi.
    rewrite (save_update d d' w l k Hp Ht Hd Hf Hi).
    unfold stored_detections. cbn [snd set_file w_dets].
    rewrite nth_replace by (eapply findIndex_lt; eauto).
    unfold results_of. cbn [to_fields]. rewrite updated_get by discriminate.
    rewrite detectionData_results. exact Hr'.
  - intros Ht.
    rewrite (save_create d d' w l Hp Ht Hd Hf).
    unfold stored_detections. cbn [snd w_dets]. rewrite last_app_one.
    unfold results_of. cbn [to_fields]. rewrite !obj_get_set. simpl String.eqb. cbv iota.
    rewrite spread_get.
    rewrite detectionData_results. exact Hr'.
Qed.

(** The amended C1 at two concrete instances: an update of a stored record
    with three vehicles, one occluded, and a creation. *)
Lemma C1_save_occlusion_fields_witness :
  let vs := [JObj [("occlusion", JObj [("isOccluded", JBool false)])];
             JObj [("occlusion", JObj [("isOccluded", JBool true)])];
             JObj [("occlusion", JObj [("isOccluded", JBool false)])]] in
  let fs := [("totalVehicles", JNum 3); ("vehicles", JArr vs)] in
  let d := Detection.set_results stale_detection (Some (JObj fs)) in
  let d1 := Detection.mk (Some (JStr "det-1")) None None None None None None
              (Some (JObj fs)) None None None None None in
  let l := [JObj [("id", JStr "det-1")]] in
  let w := mkWorld (FileOk (JArr [])) (FileOk (JArr [])) (FileOk (JArr l)) 5%Z 0 [] in
  results_of (nth 0 (stored_detections (snd (Detection.save d1 w))) JNull)
    = Some (JObj (saved_results fs vs 1)) /\
  results_of (last (stored_detections (snd (Detection.save d w))) JNull)
    = Some (JObj (saved_results fs vs 1)).
Proof.
  intros vs fs d d1 l w. split.
  - apply (proj1 (C1_save_occlusion_fields d1 fs vs 1 w l eq_refl (or_introl eq_refl)
                    eq_refl eq_refl eq_refl) O); reflexivity.
  - apply (proj2 (C1_save_occlusion_fields d fs vs 1 w l eq_refl (or_introl eq_refl)
                    eq_refl eq_refl eq_refl)); reflexivity.
Defined.

End OcclusionOnSave.

(** ** C2: status changes *)

Module StatusChanges.
Import DataService ObjFacts SaveFacts SpecProps OcclusionOnSave.

Lemma updateStatus_is_save d s ed w :
  exists d3, Detection.updateStatus d s ed w = Detection.save d3 w /\
             Detection.status d3 = Some (JStr s) /\ Detection.id d3 = Detection.id d /\
             Detection.results d3 = Detection.results d.
Proof.
  unfold Detection.updateStatus, bind, now, ret.
  destruct (String.eqb s "processing" && negb (truthy (Detection.processingStartTime (Detection.set_status d (Some (JStr s))))));
    [|destruct (Detection.is_terminal s && negb (truthy (Detection.processingEndTime (Detection.set_status d (Some (JStr s))))))];
    destruct (truthy ed); eexists; (split; [reflexivity|]); simpl; auto.
Qed.

(** C2 (claim as stated, refuted): moving a [completed] Detection to
    [processing] fails with [InvalidTransition] and leaves the record
    unmutated.  [updateStatus] succeeds, and the stored record's status
    becomes [processing]. *)
Lemma C2_completed_to_processing :
  match fst (Detection.updateStatus (Detection.of_json completed_record) "processing"
               (Some JNull) completed_world) with
  | Ok d => Detection.status d = Some (JStr "processing")
  | Throw _ => False
  end /\
  map stored_status
      (stored_detections (snd (Detection.updateStatus (Detection.of_json completed_record)
                                 "processing" (Some JNull) completed_world)))
  = [Some (JStr "processing")].
Proof. vm_compute. split; reflexivity. Qed.

(** C2 (amended): [updateStatus] has no transition table.  For every
    Detection, whatever its current status (terminal included), and every
    requested status [s], the call succeeds, returns the instance with status
    [s], and the stored record's status becomes [s]; no status change is ever
    rejected. *)
Theorem C2_updateStatus_unchecked (d : Detection.t) (s : string) (ed : option json)
    (w : World) (l : list json) (k : nat) (r : option json) :
  Detection.recompute_occlusion (Detection.results d) = Ok r ->
  truthy (Detection.id d) = true ->
  w_dets w = FileOk (JArr l) -> w_faults w = [] ->
  findIndex_m (has_id (Detection.id d)) l = Ok (Some k) ->
  exists d', fst (Detection.updateStatus d s ed w) = Ok d' /\
             Detection.status d' = Some (JStr s) /\
             stored_status (nth k (stored_detections (snd (Detection.updateStatus d s ed w))) JNull)
               = Some (JStr s).
Proof.
  intros Hr Ht Hd Hf Hi.
  destruct (updateStatus_is_save d s ed w) as [d3 [Heq [Hs [Hid Hres]]]].
  rewrite Heq. rewrite <- Hres in Hr. rewrite <- Hid in Ht, Hi.
  destruct (prepare_ok d3 r Hr) as [d' [Hp _]].
  destruct (prepare_fields d3 d' Hp) as [_ [Hs' _]].
  rewrite (save_update d3 d' w l k Hp Ht Hd Hf Hi).
  set (base := to_fields (nth k l JNull)).
  set (u := JNum (inject_Z (w_clock w))).
  assert (Hst : obj_get (obj_set (spread base (Detection.detectionData d')) "updatedAt" u) "status"
                = Some (JStr s)).
  { rewrite updated_get by discriminate. simpl. now rewrite Hs', Hs. }
  eexists; split; [reflexivity|].
  unfold stored_detections. cbn [fst snd set_file w_dets].
  rewrite nth_replace by (eapply findIndex_lt; eauto).
  unfold stored_status. cbn [to_fields]. rewrite Hst. split; [|reflexivity].
  unfold Detection.assign. cbn [to_fields]. rewrite Hst. reflexivity.
Qed.

(** The amended C2 at the completed Detection moved back to [processing]. *)
Lemma C2_updateStatus_unchecked_witness :
  exists d', fst (Detection.updateStatus (Detection.of_json completed_record) "processing"
                    (Some JNull) completed_world) = Ok d' /\
             Detection.status d' = Some (JStr "processing") /\
             stored_status (nth O (stored_detections (snd (Detection.updateStatus
                (Detection.of_json completed_record) "processing" (Some JNull) completed_world))) JNull)
               = Some (JStr "processing").
Proof.
  apply (C2_updateStatus_unchecked _ _ _ _ [completed_record] O (Detection.results (Detection.of_json completed_record)));
    reflexivity.
Defined.

End StatusChanges.

(** ** C3, C4, C5: creation, reading and writing in the data service *)

Module StoreIO.
Import DataService ObjFacts SpecProps.

Lemma createDetection_run draft w l :
  w_dets w = FileOk (JArr l) ->
  let i := JStr ("uuid-" ++ nat_string (w_uuid w)) in
  let t := JNum (inject_Z (w_clock w)) in
  let nd := JObj (obj_set (obj_set (spread [("id", i)] draft) "createdAt" t) "updatedAt" t) in
  createDetection draft w =
  (Ok nd,
   let (f, w1) := pop_fault (mkWorld (w_users w) (w_uploads w) (w_dets w) (w_clock w)
                                     (S (w_uuid w)) (w_faults w)) in
   match f with
   | WOk => set_file w1 Detections (FileOk (JArr (l ++ [nd])%list))
   | WFailKeep => w1
   | WFailTruncate => set_file w1 Detections FileBad
   end).
Proof.
  intros Hd i t nd.
  destruct w as [us up ds clk uu fl]; simpl in Hd; subst ds.
  unfold createDetection, getDetections, readData, createDetection_cont, bind, lift, ret.
  simpl. unfold writeData. destruct (pop_fault _) as [[| |] w1]; reflexivity.
Qed.

(** C3 (claim as stated, refuted): a second Detection for an Upload that
    already has one fails with [ConstraintViolation] and adds nothing.  Two
    [createDetection] calls for [upload-1] both succeed and the file then
    holds two Detections referencing it. *)
Lemma C3_second_detection_accepted :
  let (r1, w1) := createDetection upload_draft empty_world in
  let (r2, w2) := createDetection upload_draft w1 in
  is_success r1 && is_success r2 = true /\
  List.length (filter (references_upload "upload-1") (stored_detections w2)) = 2%nat.
Proof. vm_compute. split; reflexivity. Qed.

(** C3 (amended): [createDetection] checks no uniqueness: for every draft
    and every readable collection, a successful write appends the new record,
    which references the draft's Upload, whatever records already reference
    that Upload. *)
Theorem C3_createDetection_appends (draft : obj) (w : World) (l : list json) :
  w_dets w = FileOk (JArr l) -> w_faults w = [] ->
  exists nd, fst (createDetection draft w) = Ok nd /\
             stored_detections (snd (createDetection draft w)) = (l ++ [nd])%list /\
             obj_get (to_fields nd) "uploadId" = draft_value draft "uploadId".
Proof.
  intros Hd Hf. rewrite (createDetection_run draft w l Hd).
  destruct w as [us up ds clk uu fl]; simpl in Hd, Hf; subst ds fl.
  eexists; split; [reflexivity|]. split; [reflexivity|].
  cbn [to_fields]. rewrite !obj_get_set. simpl String.eqb. cbv iota.
  rewrite spread_get. unfold draft_value.
  destruct (obj_lookup (rev draft) "uploadId"); reflexivity.
Qed.

(** The amended C3 on a collection already holding a Detection of
    [upload-1]. *)
Lemma C3_createDetection_appends_witness :
  exists nd, fst (createDetection upload_draft completed_world) = Ok nd /\
             stored_detections (snd (createDetection upload_draft completed_world))
               = ([completed_record] ++ [nd])%list /\
             obj_get (to_fields nd) "uploadId" = draft_value upload_draft "uploadId".
Proof. apply C3_createDetection_appends; reflexivity. Defined.

(** C4 (claim as stated, refuted): [loadAll] fails with [IOError] on a corrupt
    file.  [readData] on an unparsable Detections file answers [[]]. *)
Lemma C4_corrupt_read_as_empty :
  readData Detections corrupt_world = (Ok (JArr []), corrupt_world).
Proof. reflexivity. Qed.

(** C4 (amended): [readData] never fails: a missing, unreadable or corrupt
    file is read as the empty collection, so a caller cannot tell it from an
    empty one.  In particular a lookup on an unreadable Detections file finds
    nothing, and a successful [createDetection] replaces the unreadable
    collection by the single new record. *)
Theorem C4_readData_total (c : coll) (w : World) (draft : obj) :
  readData c w = (Ok (match get_file w c with FileOk v => v | FileBad => JArr [] end), w) /\
  (w_dets w = FileBad -> forall i, fst (getDetectionById i w) = Ok None) /\
  (w_dets w = FileBad -> w_faults w = [] ->
     exists nd, fst (createDetection draft w) = Ok nd /\
                w_dets (snd (createDetection draft w)) = FileOk (JArr [nd])).
Proof.
  split; [unfold readData; destruct (get_file w c); reflexivity|]. split.
  - intros Hd i. destruct w as [us up ds clk uu fl]; simpl in Hd; subst ds. reflexivity.
  - intros Hd Hf. destruct w as [us up ds clk uu fl]; simpl in Hd, Hf; subst ds fl.
    eexists; split; reflexivity.
Qed.

(** The amended C4 on the corrupt Detections file. *)
Lemma C4_readData_total_witness :
  exists nd, fst (createDetection upload_draft corrupt_world) = Ok nd /\
             w_dets (snd (createDetection upload_draft corrupt_world)) = FileOk (JArr [nd]).
Proof.
  apply (proj2 (proj2 (C4_readData_total Detections corrupt_world upload_draft)));
    reflexivity.
Defined.

(** C5 (claim as stated, refuted): a failed write surfaces as an error and
    leaves the prior state intact.  [createDetection] answers the new record
    as a success and the truncated file no longer holds the prior
    collection. *)
Lemma C5_failed_write_reported_as_success :
  is_success (fst (createDetection upload_draft failing_write_world)) = true /\
  w_dets (snd (createDetection upload_draft failing_write_world)) = FileBad.
Proof. vm_compute. split; reflexivity. Qed.

(** C5 (amended): [writeData] reports a failure only as [false], and
    [createDetection] ignores it: whatever the outcome of the write, the new
    record is returned as a success.  On success the file holds the old
    records and the new one; a failure that touched nothing leaves the file
    as it was, and a failure after the in-place write truncated it leaves an
    unreadable file. *)
Theorem C5_createDetection_ignores_write_result (draft : obj) (w : World) (l : list json)
    (f : wfault) :
  w_dets w = FileOk (JArr l) -> fst (pop_fault w) = f ->
  exists nd, fst (createDetection draft w) = Ok nd /\
             w_dets (snd (createDetection draft w)) =
               match f with
               | WOk => FileOk (JArr (l ++ [nd])%list)
               | WFailKeep => FileOk (JArr l)
               | WFailTruncate => FileBad
               end.
Proof.
  intros Hd Hfault. rewrite (createDetection_run draft w l Hd).
  destruct w as [us up ds clk uu fl]; simpl in Hd, Hfault; subst ds.
  eexists; split; [reflexivity|].
  unfold pop_fault in *; simpl in *.
  destruct fl as [|f0 fl]; subst f; simpl; [reflexivity | destruct f0; reflexivity].
Qed.

(** The amended C5 at a write that fails after truncating the file. *)
Lemma C5_createDetection_ignores_write_result_witness :
  exists nd, fst (createDetection upload_draft failing_write_world) = Ok nd /\
             w_dets (snd (createDetection upload_draft failing_write_world)) = FileBad.
Proof.
  apply (C5_createDetection_ignores_write_result upload_draft failing_write_world
           [completed_record] WFailTruncate); reflexivity.
Defined.

End StoreIO.

(** ** C7, C8: server-assigned fields on create and update *)

Module ServerFields.
Import DataService ObjFacts SpecProps StoreIO.

Lemma obj_lookup_rev_none (o : obj) k : obj_lookup o k = None -> obj_lookup (rev o) k = None.
Proof.
  induction o as [|[k0 ov] r IH]; simpl; [reflexivity|].
  destruct (String.eqb k k0) eqn:E; [discriminate|].
  intros H. rewrite obj_lookup_app, (IH H). simpl. now rewrite E.
Qed.

Lemma find_m_app_one cb l x :
  find_m cb l = Ok None ->
  find_m cb (l ++ [x])%list =
  match cb x with Ok true => Ok (Some x) | Ok false => Ok None | Throw e => Throw e end.
Proof.
  induction l as [|y r IH]; simpl; intros H.
  - destruct (cb x) as [[|]|e]; reflexivity.
  - destruct (cb y) as [[|]|e]; [discriminate | exact (IH H) | discriminate].
Qed.

Lemma created_get (draft : obj) i t k :
  obj_get (obj_set (obj_set (spread [("id", i)] draft) "createdAt" t) "updatedAt" t) k =
  if String.eqb k "updatedAt" then Some t
  else if String.eqb k "createdAt" then Some t
  else match obj_lookup (rev draft) k with
       | Some ov => ov
       | None => if String.eqb k "id" then Some i else None
       end.
Proof.
  rewrite !obj_get_set, spread_get. reflexivity.
Qed.

(** C7 (claim as stated, refuted): the identifier of the record returned by
    [create(draft)] comes from the server, not from the draft.  A draft
    carrying [id = "client-id"] keeps it. *)
Lemma C7_draft_id_kept :
  match fst (createDetection client_id_draft empty_world) with
  | Ok nd => obj_get (to_fields nd) "id" = Some (JStr "client-id")
  | Throw _ => False
  end.
Proof. vm_compute. reflexivity. Qed.

(** C7 (amended): on a readable collection, [createDetection(draft)]
    returns the record [{id: uuid, ...draft, createdAt: now, updatedAt: now}]:
    its [createdAt] and [updatedAt] are the server's current time whatever
    the draft holds, its [id] is the draft's [id] when the draft has one and
    the server's uuid otherwise, and its every other field is the draft's.
    For a draft with no [id] field, on a collection where no record has the
    fresh uuid and with a successful write, [getDetectionById] of the
    returned identifier yields the returned record. *)
Theorem C7_create_get_roundtrip (draft : obj) (w : World) (l : list json) :
  w_dets w = FileOk (JArr l) ->
  exists nd,
    fst (createDetection draft w) = Ok nd /\
    obj_get (to_fields nd) "id" =
      match obj_lookup (rev draft) "id" with
      | Some ov => ov
      | None => Some (JStr ("uuid-" ++ nat_string (w_uuid w)))
      end /\
    obj_get (to_fields nd) "createdAt" = Some (JNum (inject_Z (w_clock w))) /\
    obj_get (to_fields nd) "updatedAt" = Some (JNum (inject_Z (w_clock w))) /\
    (forall k, k <> "id" -> k <> "createdAt" -> k <> "updatedAt" ->
       obj_get (to_fields nd) k = draft_value draft k) /\
    (obj_lookup draft "id" = None -> w_faults w = [] ->
     find_m (has_id (Some (JStr ("uuid-" ++ nat_string (w_uuid w))))) l = Ok None ->
     fst (getDetectionById (obj_get (to_fields nd) "id") (snd (createDetection draft w)))
       = Ok (Some nd)).
Proof.
  intros Hd.
  rewrite (createDetection_run draft w l Hd).
  destruct w as [us up ds clk uu fl]; simpl in Hd; subst ds.
  cbn [w_faults w_users w_uploads w_dets w_clock w_uuid].
  set (u := "uuid-" ++ nat_string uu) in *.
  set (nd := obj_set (obj_set (spread [("id", JStr u)] draft) "createdAt" (JNum (inject_Z clk)))
                     "updatedAt" (JNum (inject_Z clk))).
  exists (JObj nd). split; [reflexivity|]. cbn [to_fields].
  split; [unfold nd; rewrite created_get; simpl String.eqb; cbv iota; reflexivity|].
  split; [unfold nd; now rewrite created_get|].
  split; [unfold nd; now rewrite created_get|].
  split.
  - intros k H1 H2 H3. unfold nd. rewrite created_get.
    apply String.eqb_neq in H1, H2, H3. rewrite H1, H2, H3. unfold draft_value.
    destruct (obj_lookup (rev draft) k); reflexivity.
  - intros Hnoid Hf Hfresh. cbn [w_faults] in Hf, Hfresh. subst fl.
    cbn [pop_fault w_users w_uploads w_dets w_clock w_uuid set_file].
    assert (Hid : obj_get nd "id" = Some (JStr u)).
    { unfold nd. rewrite created_get. simpl. now rewrite (obj_lookup_rev_none _ _ Hnoid). }
    rewrite Hid.
    unfold getDetectionById, getDetections, readData, bind, lift.
    cbn [get_file w_dets set_file snd fst as_array pop_fault w_faults w_users w_uploads
         w_clock w_uuid].
    rewrite (find_m_app_one _ _ _ Hfresh).
    unfold has_id. cbn [get_prop to_fields]. rewrite Hid. simpl. now rewrite String.eqb_refl.
Qed.

(** The amended C7 for the analyze request's draft on a collection holding
    another Detection, and for a draft that carries its own [id]. *)
Lemma C7_create_get_roundtrip_witness :
  (exists nd,
    fst (createDetection upload_draft completed_world) = Ok nd /\
    obj_get (to_fields nd) "id" =
      match obj_lookup (rev upload_draft) "id" with
      | Some ov => ov
      | None => Some (JStr ("uuid-" ++ nat_string (w_uuid completed_world)))
      end /\
    obj_get (to_fields nd) "createdAt" = Some (JNum (inject_Z (w_clock completed_world))) /\
    obj_get (to_fields nd) "updatedAt" = Some (JNum (inject_Z (w_clock completed_world))) /\
    (forall k, k <> "id" -> k <> "createdAt" -> k <> "updatedAt" ->
       obj_get (to_fields nd) k = draft_value upload_draft k) /\
    (obj_lookup upload_draft "id" = None -> w_faults completed_world = [] ->
     find_m (has_id (Some (JStr ("uuid-" ++ nat_string (w_uuid completed_world)))))
            [completed_record] = Ok None ->
     fst (getDetectionById (obj_get (to_fields nd) "id")
                           (snd (createDetection upload_draft completed_world)))
       = Ok (Some nd))) /\
  obj_lookup upload_draft "id" = None /\ w_faults completed_world = [] /\
  find_m (has_id (Some (JStr ("uuid-" ++ nat_string (w_uuid completed_world)))))
         [completed_record] = Ok None /\
  (exists nd,
    fst (createDetection client_id_draft empty_world) = Ok nd /\
    obj_get (to_fields nd) "id" =
      match obj_lookup (rev client_id_draft) "id" with
      | Some ov => ov
      | None => Some (JStr ("uuid-" ++ nat_string (w_uuid empty_world)))
      end /\
    obj_get (to_fields nd) "createdAt" = Some (JNum (inject_Z (w_clock empty_world))) /\
    obj_get (to_fields nd) "updatedAt" = Some (JNum (inject_Z (w_clock empty_world))) /\
    (forall k, k <> "id" -> k <> "createdAt" -> k <> "updatedAt" ->
       obj_get (to_fields nd) k = draft_value client_id_draft k) /\
    (obj_lookup client_id_draft "id" = None -> w_faults empty_world = [] ->
     find_m (has_id (Some (JStr ("uuid-" ++ nat_string (w_uuid empty_world))))) [] = Ok None ->
     fst (getDetectionById (obj_get (to_fields nd) "id")
                           (snd (createDetection client_id_draft empty_world)))
       = Ok (Some nd))).
Proof.
  split; [apply (C7_create_get_roundtrip upload_draft completed_world [completed_record]);
          reflexivity|].
  split; [reflexivity|]. split; [reflexivity|]. split; [reflexivity|].
  apply (C7_create_get_roundtrip client_id_draft empty_world []); reflexivity.
Defined.

Lemma get_set_file w c f : get_file (set_file w c f) c = f.
Proof. destruct c; reflexivity. Qed.

Lemma update_in_run c i patch w l k :
  get_file w c = FileOk (JArr l) -> w_faults w = [] ->
  findIndex_m (has_id i) l = Ok (Some k) ->
  let r := JObj (obj_set (spread (to_fields (nth k l JNull)) patch) "updatedAt"
                         (JNum (inject_Z (w_clock w)))) in
  update_in c i patch w = (Ok (Some r), set_file w c (FileOk (JArr (replace_nth l k r)))).
Proof.
  intros Hc Hf Hi r.
  unfold update_in, readData, bind, lift. rewrite Hc. cbn [as_array]. rewrite Hi.
  unfold now, ret, writeData, pop_fault. rewrite Hf.
  destruct w; reflexivity.
Qed.

(** C8 (claim as stated, refuted): [update(id, patch)] keeps the record's
    identifier even when the patch has an [id] field.  The stored record
    takes the patch's [id] and [createdAt]. *)
Lemma C8_patch_replaces_id :
  map (fun r => (obj_get (to_fields r) "id", obj_get (to_fields r) "createdAt"))
      (stored_detections (snd (updateDetection (Some (JStr "det-1")) id_patch completed_world)))
  = [(Some (JStr "other-id"), Some (JNum 1))].
Proof. vm_compute. reflexivity. Qed.

(** C8 (amended): [updateUser], [updateUpload] and [updateDetection] merge
    the patch over the stored record with a plain spread: the stored [id]
    and [createdAt] are kept only when the patch has no such field, and are
    replaced by the patch's values otherwise; [updatedAt] is always the
    server's current time. *)
Theorem C8_update_spread_fields (c : coll) (i : option json) (patch : obj) (w : World)
    (l : list json) (k : nat) :
  get_file w c = FileOk (JArr l) -> w_faults w = [] ->
  findIndex_m (has_id i) l = Ok (Some k) ->
  let r := nth k (stored_in (snd (update_in c i patch w)) c) JNull in
  let old := to_fields (nth k l JNull) in
  fst (update_in c i patch w) = Ok (Some r) /\
  obj_get (to_fields r) "id" =
    match obj_lookup (rev patch) "id" with Some ov => ov | None => obj_get old "id" end /\
  obj_get (to_fields r) "createdAt" =
    match obj_lookup (rev patch) "createdAt" with Some ov => ov | None => obj_get old "createdAt" end /\
  obj_get (to_fields r) "updatedAt" = Some (JNum (inject_Z (w_clock w))).
Proof.
  intros Hc Hf Hi r old. unfold r.
  rewrite (update_in_run c i patch w l k Hc Hf Hi).
  unfold stored_in. cbn [snd fst]. rewrite get_set_file.
  rewrite nth_replace by (eapply findIndex_lt; eauto).
  cbn [to_fields]. rewrite !obj_get_set. simpl String.eqb. cbv iota.
  rewrite !spread_get. repeat split; reflexivity.
Qed.

(** The amended C8 for [updateDetection] with a patch carrying [id] and
    [createdAt]. *)
Lemma C8_update_spread_fields_witness :
  let r := nth O (stored_in (snd (updateDetection (Some (JStr "det-1")) id_patch completed_world))
                            Detections) JNull in
  fst (updateDetection (Some (JStr "det-1")) id_patch completed_world) = Ok (Some r) /\
  obj_get (to_fields r) "id" =
    match obj_lookup (rev id_patch) "id" with
    | Some ov => ov | None => obj_get (to_fields completed_record) "id" end /\
  obj_get (to_fields r) "createdAt" =
    match obj_lookup (rev id_patch) "createdAt" with
    | Some ov => ov | None => obj_get (to_fields completed_record) "createdAt" end /\
  obj_get (to_fields r) "updatedAt" = Some (JNum (inject_Z (w_clock completed_world))).
Proof.
  apply (C8_update_spread_fields Detections (Some (JStr "det-1")) id_patch completed_world
           [completed_record] O); reflexivity.
Defined.

End ServerFields.

(** ** C6: concurrent creations for one Upload *)

Module ConcurrentCreates.
Import DataService Concurrent SpecProps.

Lemma step_task_ok tk w :
  task_ok tk = true -> dets_ok (w_dets w) = true ->
  exists tk', fst (step_task tk w) = Ok tk' /\ task_ok tk' = true /\
              dets_ok (w_dets (snd (step_task tk w))) = true.
Proof.
  intros Ht Hw. destruct w as [us up ds clk uu fl]; simpl in Hw.
  destruct tk as [d | d v | [r|e]]; simpl in Ht; try discriminate.
  - destruct ds as [v|]; [destruct v; try discriminate|];
      eexists; repeat split; reflexivity.
  - destruct v; try discriminate.
    unfold step_task, catch_res, createDetection_cont, bind, lift, ret, uuidv4, now, writeData,
      pop_fault.
    cbn [w_faults as_array].
    destruct fl as [|[| |] fl]; cbn; eexists; repeat split; auto.
  - eexists; repeat split; auto.
Qed.

Lemma replace_task_ok ts i x :
  forallb task_ok ts = true -> task_ok x = true ->
  forallb task_ok (replace_nth_t ts i x) = true /\
  List.length (replace_nth_t ts i x) = List.length ts.
Proof.
  revert i. induction ts as [|y r IH]; intros [|i] H Hx; simpl in *; auto.
  - apply andb_true_iff in H as [_ H]. now rewrite Hx, H.
  - apply andb_true_iff in H as [Hy H]. destruct (IH i H Hx) as [H1 H2].
    now rewrite Hy, H1, H2.
Qed.

Lemma nth_error_forallb (ts : list task) i tk :
  forallb task_ok ts = true -> nth_error ts i = Some tk -> task_ok tk = true.
Proof.
  intros H Hn. apply forallb_forall with (x := tk) in H; auto.
  eapply nth_error_In; eauto.
Qed.

Lemma run_ok sched ts w :
  forallb task_ok ts = true -> dets_ok (w_dets w) = true ->
  exists ts', fst (run sched ts w) = Ok ts' /\ List.length ts' = List.length ts /\
              forallb task_ok ts' = true.
Proof.
  revert ts w. induction sched as [|i rest IH]; intros ts w Hts Hw; simpl.
  - eexists; repeat split; auto.
  - destruct (nth_error ts i) as [tk|] eqn:En; [|apply IH; auto].
    destruct (step_task_ok tk w (nth_error_forallb ts i tk Hts En) Hw) as [tk' [H1 [H2 H3]]].
    unfold bind. destruct (step_task tk w) as [r w'] eqn:Es. simpl in H1, H3. subst r.
    destruct (replace_task_ok ts i tk' Hts H2) as [H4 H5].
    destruct (IH (replace_nth_t ts i tk') w' H4 H3) as [ts' [G1 [G2 G3]]].
    exists ts'. repeat split; auto. congruence.
Qed.

Lemma done_ok_success (ts : list task) :
  forallb task_ok ts = true -> forallb is_done ts = true ->
  List.length (filter done_success ts) = List.length ts.
Proof.
  induction ts as [|[d|d v|[r|e]] ts IH]; simpl; intros H1 H2; try discriminate; auto.
Qed.

(** C6 (claim as stated, refuted): of N concurrent creations for one Upload
    exactly one succeeds.  With two creations for [upload-1] whose load and
    replace halves interleave (load, load, replace, replace), both succeed,
    and the file ends with a single record: the first append is lost. *)
Lemma C6_interleaved_creates_both_succeed :
  match fst (run [O; 1%nat; O; 1%nat] [TStart upload_draft; TStart upload_draft] empty_world) with
  | Ok ts => List.length (filter done_success ts) = 2%nat
  | Throw _ => False
  end /\
  List.length (stored_detections
                 (snd (run [O; 1%nat; O; 1%nat] [TStart upload_draft; TStart upload_draft]
                           empty_world))) = 1%nat.
Proof. vm_compute. split; reflexivity. Qed.

(** C6 (amended): [createDetection] takes no lock and checks no
    uniqueness.  Under every schedule of N concurrent calls (for any drafts,
    the same Upload included) no call fails, and once all calls have
    finished all N have succeeded.  Their load and replace halves can
    interleave: on a readable file and with successful writes, two
    interleaved creations (load, load, replace, replace), for any drafts,
    both succeed while the file ends as the loaded records plus the second
    call's record only. *)
Theorem C6_concurrent_creates_never_rejected (sched : list nat) (drafts : list obj) (w : World) :
  dets_ok (w_dets w) = true ->
  (exists ts, fst (run sched (map TStart drafts) w) = Ok ts /\
              List.length ts = List.length drafts /\
              (forallb is_done ts = true -> List.length (filter done_success ts) = List.length drafts)) /\
  (forall d1 d2 l, w_dets w = FileOk (JArr l) -> w_faults w = [] ->
     exists r1 r2 w', run [O; 1%nat; O; 1%nat] [TStart d1; TStart d2] w
                      = (Ok [TDone (Ok r1); TDone (Ok r2)], w') /\
                      stored_detections w' = (l ++ [r2])%list).
Proof.
  intros Hw. split.
  - assert (H0 : forallb task_ok (map TStart drafts) = true).
    { induction drafts; simpl; auto. }
    destruct (run_ok sched _ w H0 Hw) as [ts [H1 [H2 H3]]].
    exists ts. rewrite length_map in H2. repeat split; auto.
    intros Hd. rewrite <- H2. apply done_ok_success; auto.
  - intros d1 d2 l Hd Hf. destruct w as [us up ds clk uu fl]; cbn in Hd, Hf; subst.
    do 3 eexists. split; reflexivity.
Qed.

(** The amended C6 at three creations for [upload-1], fully interleaved, and
    at two interleaved creations on the file holding [completed_record]. *)
Lemma C6_concurrent_creates_never_rejected_witness :
  (exists ts, fst (run [O; 1%nat; 2%nat; O; 1%nat; 2%nat]
                       [TStart upload_draft; TStart upload_draft; TStart upload_draft]
                       completed_world) = Ok ts /\
              List.length ts = 3%nat /\
              (forallb is_done ts = true -> List.length (filter done_success ts) = 3%nat)) /\
  (exists r1 r2 w', run [O; 1%nat; O; 1%nat] [TStart upload_draft; TStart upload_draft]
                        completed_world = (Ok [TDone (Ok r1); TDone (Ok r2)], w') /\
                    stored_detections w' = ([completed_record] ++ [r2])%list).
Proof.
  split.
  - exact (proj1 (C6_concurrent_creates_never_rejected [O; 1%nat; 2%nat; O; 1%nat; 2%nat]
                   [upload_draft; upload_draft; upload_draft] completed_world eq_refl)).
  - exact (proj2 (C6_concurrent_creates_never_rejected [] [] completed_world eq_refl)
                 upload_draft upload_draft [completed_record] eq_refl eq_refl).
Defined.

End ConcurrentCreates.

(** ** C9: an analysis error in the background job *)

Module JobFailure.
Import DataService ObjFacts SaveFacts SpecProps OcclusionOnSave.



Lemma bind_ok {A B} (m : M A) (k : A -> M B) w a w' :
  m w = (Ok a, w') -> bind m k w = k a w'.
Proof. intros H. unfold bind. now rewrite H. Qed.



Lemma try_catch_ok {A} (m : M A) h w a w' :
  m w = (Ok a, w') -> try_catch m h w = (Ok a, w').
Proof. intros H. unfold try_catch. now rewrite H. Qed.


Lemma sleep_run ms w :
  sleep ms w = (Ok tt, mkWorld (w_users w) (w_uploads w) (w_dets w) (w_clock w + ms)
                              (w_uuid w) (w_faults w)).
Proof. reflexivity. Qed.






End JobFailure.

(** ** C10: occlusion statistics *)

Module OcclusionStats.
Import DataService Stats SpecProps ObjFacts SaveFacts.

Lemma count_vehicles_spec tot occ vs tot' occ' :
  count_vehicles tot occ vs = Ok (tot', occ') ->
  tot' = (tot + Z.of_nat (List.length vs))%Z /\
  occ' = (occ + Z.of_nat (List.length (filter top_occluded vs)))%Z.
Proof.
  revert tot occ. induction vs as [|v r IH]; intros tot occ H; cbn [count_vehicles] in H.
  - inversion H; subst. simpl. split; lia.
  - assert (Hg : exists o, get_prop (Some v) "occluded" = Ok o /\ top_occluded v = truthy o).
    { destruct v; simpl in H |- *; try discriminate; eexists; split; reflexivity. }
    destruct Hg as [o [Hg Ho]]. rewrite Hg in H.
    destruct (IH _ _ H) as [-> ->]. cbn [List.length filter]. rewrite Ho.
    destruct (truthy o); cbn [List.length]; split; lia.
Qed.

Lemma occlusion_counts_spec tot occ ds tot' occ' :
  occlusion_counts tot occ ds = Ok (tot', occ') ->
  tot' = (tot + Z.of_nat (List.length (top_vehicles ds)))%Z /\
  occ' = (occ + Z.of_nat (List.length (filter top_occluded (top_vehicles ds))))%Z.
Proof.
  revert tot occ. induction ds as [|d r IH]; intros tot occ H; cbn [occlusion_counts] in H.
  - inversion H; subst. simpl. split; lia.
  - unfold top_vehicles. cbn [flat_map]. fold (top_vehicles r).
    rewrite filter_app, !length_app.
    assert (Hg : exists vs, get_prop (Some d) "vehicles" = Ok vs /\
                            obj_get (to_fields d) "vehicles" = vs).
    { destruct d; simpl in H |- *; try discriminate; eexists; split; reflexivity. }
    destruct Hg as [vs [Hg Hv]]. rewrite Hg in H. rewrite Hv.
    destruct (truthy vs) eqn:Ht.
    + destruct vs as [[| b | q | str | l | fs]|]; simpl in H, Ht; try discriminate.
      destruct (count_vehicles tot occ l) as [[t1 o1]|e] eqn:Ec; [|discriminate].
      destruct (count_vehicles_spec _ _ _ _ _ Ec) as [-> ->].
      destruct (IH _ _ H) as [-> ->]. split; lia.
    + destruct (IH _ _ H) as [-> ->].
      assert (Hn : match vs with Some (JArr l) => l | _ => [] end = []).
      { destruct vs as [[| | | | l |]|]; simpl in Ht; try discriminate; reflexivity. }
      rewrite Hn. simpl. split; lia.
Qed.

Lemma digits_point_two_app u t :
  digits_point_two t = true -> digits_point_two (uint_string u ++ t) = true.
Proof. induction u; simpl; auto. Qed.

Lemma single_digit z :
  (0 <= z < 10)%Z -> exists c, N_string (Z.to_N z) = String c EmptyString /\ is_digit c = true.
Proof.
  intros H.
  assert (Hz : z = 0%Z \/ z = 1%Z \/ z = 2%Z \/ z = 3%Z \/ z = 4%Z \/ z = 5%Z \/ z = 6%Z \/
               z = 7%Z \/ z = 8%Z \/ z = 9%Z) by lia.
  repeat destruct Hz as [-> | Hz]; try (subst; eexists; split; reflexivity).
Qed.

Lemma toFixed2_shape x : (0 <= Qnum x)%Z -> two_decimals (toFixed2 x) = true.
Proof.
  intros Hx. unfold toFixed2.
  set (n := ((200 * Z.abs (Qnum x) + Zpos (Qden x)) / (2 * Zpos (Qden x)))%Z).
  assert (Hlt : Z.ltb (Qnum x) 0 = false) by (apply Z.ltb_ge; lia). rewrite Hlt.
  destruct (single_digit ((n mod 100) / 10)) as [c1 [E1 D1]];
    [Z.div_mod_to_equations; lia|].
  destruct (single_digit ((n mod 100) mod 10)) as [c2 [E2 D2]];
    [Z.div_mod_to_equations; lia|].
  rewrite E1, E2. unfold N_string at 1.
  assert (Hp : digits_point_two ("." ++ String c1 "" ++ String c2 "") = true)
    by (simpl; rewrite D1, D2; reflexivity).
  destruct (N.to_uint (Z.to_N (n / 100))) eqn:E; simpl; try (apply digits_point_two_app; exact Hp).
  exfalso. pose proof (DecimalN.Unsigned.of_to (Z.to_N (n / 100))) as Ho.
  rewrite E in Ho. simpl in Ho. rewrite <- Ho in E. discriminate.
Qed.

Lemma scale2_nonneg m e : (0 <= m)%Z -> (0 <= Qnum (scale2 m e))%Z.
Proof.
  intros Hm. unfold scale2. destruct (Z.leb_spec 0 e); simpl; [|lia].
  apply Z.mul_nonneg_nonneg; [lia | apply Z.pow_nonneg; lia].
Qed.

Lemma round_double_nonneg q : (0 <= Qnum q)%Z -> (0 <= Qnum (round_double q))%Z.
Proof.
  intros H. unfold round_double. cbv zeta.
  destruct (Z.eqb (Z.abs (Qnum q)) 0); [simpl; lia|].
  rewrite (proj2 (Z.ltb_ge _ _) H). apply scale2_nonneg.
  set (e := Z.max _ (-1074)%Z).
  assert (Hd : (0 < (if Z.leb 0 e then Zpos (Qden q) * 2 ^ e else Zpos (Qden q)))%Z).
  { destruct (Z.leb_spec 0 e); [apply Z.mul_pos_pos; [lia | apply Z.pow_pos_nonneg; lia] | lia]. }
  assert (Hn : (0 <= (if Z.leb 0 e then Z.abs (Qnum q) else Z.abs (Qnum q) * 2 ^ (- e)))%Z).
  { destruct (Z.leb_spec 0 e); [lia | apply Z.mul_nonneg_nonneg; [lia | apply Z.pow_nonneg; lia]]. }
  assert (0 <= (if Z.leb 0 e then Z.abs (Qnum q) else Z.abs (Qnum q) * 2 ^ (- e)) /
               (if Z.leb 0 e then Zpos (Qden q) * 2 ^ e else Zpos (Qden q)))%Z
    by (apply Z.div_pos; lia).
  match goal with |- (0 <= (if ?c then _ else _))%Z => destruct c end; lia.
Qed.

Lemma Qnum_mult x y : Qnum (x * y) = (Qnum x * Qnum y)%Z.
Proof. reflexivity. Qed.

Lemma occlusionRate_shape tot occ :
  (0 <= occ)%Z ->
  (0 < tot -> exists s, occlusionRate tot occ = JStr s /\ two_decimals s = true)%Z /\
  (tot = 0 -> occlusionRate tot occ = JNum 0)%Z.
Proof.
  intros Ho. unfold occlusionRate. split.
  - intros Ht. destruct (Z.ltb_spec 0 tot); [|lia].
    eexists; split; [reflexivity|]. apply toFixed2_shape.
    apply round_double_nonneg. rewrite Qnum_mult.
    apply Z.mul_nonneg_nonneg; [|simpl; lia].
    apply round_double_nonneg. destruct tot as [|p|p]; try lia. simpl. lia.
  - intros ->. reflexivity.
Qed.

(** C10: [calculateOcclusionStats], which [getStats] applies to the user's
    detections, counts the vehicles of the top-level [vehicles] arrays and,
    among them, those whose top-level [occluded] is truthy;
    [occlusionRate] is a two-decimal string when there is a vehicle and the
    number [0] otherwise.  The records [Detection.save] writes get no
    top-level [vehicles] field: a created record has none, an updated one
    keeps the stored record's. *)
Theorem C10_occlusion_stats (ds : list json) (tot occ : Z) :
  occlusion_counts 0 0 ds = Ok (tot, occ) ->
  tot = Z.of_nat (List.length (top_vehicles ds)) /\
  occ = Z.of_nat (List.length (filter top_occluded (top_vehicles ds))) /\
  calculateOcclusionStats ds =
    Ok (JObj [("totalVehicles", JNum (inject_Z tot)); ("occludedVehicles", JNum (inject_Z occ));
              ("occlusionRate", occlusionRate tot occ)]) /\
  (0 < tot -> exists s, occlusionRate tot occ = JStr s /\ two_decimals s = true)%Z /\
  (tot = 0 -> occlusionRate tot occ = JNum 0)%Z /\
  (forall d i t, obj_get (obj_set (obj_set (spread [("id", i)] (Detection.detectionData d))
                                           "createdAt" t) "updatedAt" t) "vehicles" = None) /\
  (forall base d u, obj_get (obj_set (spread base (Detection.detectionData d)) "updatedAt" u)
                            "vehicles" = obj_get base "vehicles").
Proof.
  intros H.
  destruct (occlusion_counts_spec _ _ _ _ _ H) as [Ht Ho]. simpl in Ht, Ho.
  split; [exact Ht|]. split; [exact Ho|]. split.
  { unfold calculateOcclusionStats. now rewrite H. }
  destruct (occlusionRate_shape tot occ) as [Hs Hz]; [lia|].
  split; [exact Hs|]. split; [exact Hz|]. split.
  - intros d i t. rewrite !obj_get_set. simpl String.eqb. cbv iota.
    rewrite spread_get. reflexivity.
  - intros base d u. rewrite updated_get by discriminate. reflexivity.
Qed.

Lemma C10_occlusion_stats_witness :
  let ds := [JObj [("id", JStr "det-1");
                   ("results", JObj [("vehicles", JArr [JObj [("occlusion",
                                       JObj [("isOccluded", JBool true)])]])])];
             JObj [("id", JStr "det-2");
                   ("vehicles", JArr [JObj [("occluded", JBool true)];
                                      JObj [("occluded", JBool false)]; JObj []])]] in
  (3%Z = Z.of_nat (List.length (top_vehicles ds)) /\
   1%Z = Z.of_nat (List.length (filter top_occluded (top_vehicles ds))) /\
   calculateOcclusionStats ds =
     Ok (JObj [("totalVehicles", JNum (inject_Z 3%Z)); ("occludedVehicles", JNum (inject_Z 1%Z));
               ("occlusionRate", occlusionRate 3%Z 1%Z)]) /\
   (0 < 3 -> exists s, occlusionRate 3%Z 1%Z = JStr s /\ two_decimals s = true)%Z /\
   (3 = 0 -> occlusionRate 3%Z 1%Z = JNum 0)%Z /\
   (forall d i t, obj_get (obj_set (obj_set (spread [("id", i)] (Detection.detectionData d))
                                            "createdAt" t) "updatedAt" t) "vehicles" = None) /\
   (forall base d u, obj_get (obj_set (spread base (Detection.detectionData d)) "updatedAt" u)
                             "vehicles" = obj_get base "vehicles")) /\
  occlusionRate 3%Z 1%Z = JStr "33.33".
Proof.
  intros ds. split; [| reflexivity].
  apply (C10_occlusion_stats ds 3%Z 1%Z). reflexivity.
Defined.

End OcclusionStats.

(** ** The record store: create, find, filter, update and delete *)

Module StoreOps.
Import DataService DataServiceOps Stats ObjFacts SpecProps StoreIO ServerFields.

Lemma create_in_run c draft w l :
  get_file w c = FileOk (JArr l) -> w_faults w = [] ->
  let i := JStr ("uuid-" ++ nat_string (w_uuid w)) in
  let t := JNum (inject_Z (w_clock w)) in
  let r := JObj (obj_set (obj_set (spread [("id", i)] draft) "createdAt" t) "updatedAt" t) in
  create_in c draft w =
  (Ok r, set_file (mkWorld (w_users w) (w_uploads w) (w_dets w) (w_clock w) (S (w_uuid w)) [])
                  c (FileOk (JArr (l ++ [r])%list))).
Proof.
  intros Hc Hf i t r.
  destruct w as [us up ds clk uu fl]; cbn [w_faults] in Hf; subst fl.
  destruct c; cbn [get_file w_users w_uploads w_dets] in Hc; subst; reflexivity.
Qed.




Lemma filter_lacks_id i l :
  (forall x, In x l -> x <> JNull) ->
  filter_m (lacks_id i) l = Ok (filter (fun x => negb (id_is i x)) l).
Proof.
  induction l as [|x r IH]; intros Hn; [reflexivity|].
  simpl. rewrite IH by (intros y Hy; apply Hn; now right).
  assert (Hx : x <> JNull) by (apply Hn; now left).
  unfold lacks_id, has_id, id_is.
  destruct x; try contradiction; reflexivity.
Qed.

Lemma filter_shorter (p : json -> bool) l :
  Nat.ltb (List.length (filter (fun x => negb (p x)) l)) (List.length l) = existsb p l.
Proof.
  induction l as [|x r IH]; [reflexivity|]. simpl.
  pose proof (filter_length_le (fun x => negb (p x)) r).
  destruct (p x); simpl.
  - apply Nat.ltb_lt. lia.
  - rewrite <- IH. destruct (Nat.ltb_spec (List.length (filter (fun x => negb (p x)) r))
                               (List.length r)),
                    (Nat.ltb_spec (S (List.length (filter (fun x => negb (p x)) r)))
                               (S (List.length r))); auto; lia.
Qed.

(** [deleteUser], [deleteUpload] and [deleteDetection] on a readable file of
    records with a successful write: the file keeps exactly the records
    whose [id] differs, in their order, and the answer is whether some
    record had the [id]. *)
Theorem delete_in_spec (c : coll) (i : option json) (w : World) (l : list json) :
  get_file w c = FileOk (JArr l) -> w_faults w = [] ->
  (forall x, In x l -> x <> JNull) ->
  delete_in c i w =
  (Ok (existsb (id_is i) l), set_file w c (FileOk (JArr (filter (fun x => negb (id_is i x)) l)))).
Proof.
  intros Hc Hf Hn.
  unfold delete_in, readData, bind, lift. rewrite Hc. cbn [as_array].
  rewrite (filter_lacks_id i l Hn). unfold writeData, pop_fault, ret. rewrite Hf.
  rewrite filter_shorter. destruct w; reflexivity.
Qed.

Lemma delete_in_spec_witness :
  delete_in Detections (Some (JStr "det-1")) completed_world =
  (Ok (existsb (id_is (Some (JStr "det-1"))) [completed_record]),
   set_file completed_world Detections
     (FileOk (JArr (filter (fun x => negb (id_is (Some (JStr "det-1")) x)) [completed_record])))).
Proof.
  apply (delete_in_spec Detections (Some (JStr "det-1")) completed_world [completed_record]);
    [reflexivity | reflexivity | simpl; intros x [<- | []]; discriminate].
Defined.

(** A delete on a file that cannot be read answers [false] and, when the
    write succeeds, replaces the file with the empty collection. *)
Theorem delete_in_unreadable (c : coll) (i : option json) (w : World) :
  get_file w c = FileBad -> w_faults w = [] ->
  delete_in c i w = (Ok false, set_file w c (FileOk (JArr []))).
Proof.
  intros Hc Hf. unfold delete_in, readData, bind, lift. rewrite Hc.
  unfold writeData, pop_fault, ret. cbn [as_array filter_m]. rewrite Hf.
  destruct w; reflexivity.
Qed.

Lemma delete_in_unreadable_witness :
  delete_in Detections (Some (JStr "det-1")) corrupt_world =
  (Ok false, set_file corrupt_world Detections (FileOk (JArr []))).
Proof. apply delete_in_unreadable; reflexivity. Defined.

Lemma findIndex_nth cb l k :
  findIndex_m cb l = Ok (Some k) -> cb (nth k l JNull) = Ok true.
Proof.
  revert k. induction l as [|x r IH]; intros k; simpl; [discriminate|].
  destruct (cb x) as [[|]|e] eqn:E; intros H.
  - inversion H; subst. exact E.
  - destruct (findIndex_m cb r) as [[j|]|e] eqn:E2; inversion H; subst. now apply IH.
  - discriminate.
Qed.

Lemma has_id_true i x : has_id i x = Ok true -> id_is i x = true.
Proof.
  unfold has_id, id_is. destruct x; simpl; try discriminate; intros H; injection H as H;
    try exact H; destruct i; reflexivity.
Qed.

Lemma replace_nth_length l k x : List.length (replace_nth l k x) = List.length l.
Proof.
  revert k. induction l as [|y r IH]; intros [|k]; simpl; auto.
Qed.

(** [updateUser], [updateUpload] and [updateDetection] with a patch without
    an [id] field, on a readable file with a successful write: the matched
    record is replaced in place (the file keeps its length and its other
    records), and looking the [id] up again finds the updated record. *)
Theorem update_in_then_find (c : coll) (i : option json) (patch : obj) (w : World)
    (l : list json) (k : nat) :
  get_file w c = FileOk (JArr l) -> w_faults w = [] ->
  findIndex_m (has_id i) l = Ok (Some k) ->
  obj_lookup patch "id" = None ->
  exists r,
    fst (update_in c i patch w) = Ok (Some r) /\
    stored_in (snd (update_in c i patch w)) c = replace_nth l k r /\
    List.length (stored_in (snd (update_in c i patch w)) c) = List.length l /\
    fst (find_in c (has_id i) (snd (update_in c i patch w))) = Ok (Some r).
Proof.
  intros Hc Hf Hi Hp.
  rewrite (update_in_run c i patch w l k Hc Hf Hi). cbv zeta.
  set (r := JObj (obj_set (spread (to_fields (nth k l JNull)) patch) "updatedAt"
                          (JNum (inject_Z (w_clock w))))).
  assert (Hr : has_id i r = Ok true).
  { unfold has_id, r. cbn [get_prop]. rewrite obj_get_set. simpl String.eqb. cbv iota.
    rewrite spread_get, (obj_lookup_rev_none _ _ Hp).
    pose proof (has_id_true _ _ (findIndex_nth _ _ _ Hi)) as H. unfold id_is in H.
    now rewrite H. }
  exists r. cbn [fst snd]. unfold stored_in. rewrite get_set_file.
  split; [reflexivity|]. split; [reflexivity|]. split; [apply replace_nth_length|].
  unfold find_in, readData, bind, lift. rewrite get_set_file. cbn [as_array].
  rewrite (findIndex_find _ _ _ (findIndex_replace _ _ _ _ Hi Hr)).
  rewrite nth_replace by (eapply findIndex_lt; eauto). reflexivity.
Qed.

Lemma update_in_then_find_witness :
  exists r,
    fst (update_in Detections (Some (JStr "det-1")) upload_draft completed_world) = Ok (Some r) /\
    stored_in (snd (update_in Detections (Some (JStr "det-1")) upload_draft completed_world))
      Detections = replace_nth [completed_record] O r /\
    List.length (stored_in (snd (update_in Detections (Some (JStr "det-1")) upload_draft
                                          completed_world)) Detections)
      = List.length [completed_record] /\
    fst (find_in Detections (has_id (Some (JStr "det-1")))
                 (snd (update_in Detections (Some (JStr "det-1")) upload_draft completed_world)))
      = Ok (Some r).
Proof.
  apply (update_in_then_find Detections (Some (JStr "det-1")) upload_draft completed_world
           [completed_record] O); reflexivity.
Defined.

Lemma filter_m_app_one cb l x fl b :
  filter_m cb l = Ok fl -> cb x = Ok b ->
  filter_m cb (l ++ [x])%list = Ok (fl ++ (if b then [x] else []))%list.
Proof.
  revert fl. induction l as [|y r IH]; intros fl H Hx; simpl in H |- *.
  - inversion H; subst. rewrite Hx. destruct b; reflexivity.
  - destruct (cb y) as [b'|e]; [|discriminate].
    destruct (filter_m cb r) as [r'|e] eqn:E; [|discriminate].
    inversion H; subst. rewrite (IH r' eq_refl Hx). destruct b'; reflexivity.
Qed.

(** [getUploadsByUserId], [getDetectionsByUserId] and
    [getDetectionsByUploadId] after a create whose draft gives the field the
    string value [v]: the answer is the earlier answer with the new record
    appended. *)
Theorem filter_after_create (c : coll) (key : string) (v : string) (draft : obj) (w : World)
    (l fl : list json) :
  get_file w c = FileOk (JArr l) -> w_faults w = [] ->
  key <> "id" -> key <> "createdAt" -> key <> "updatedAt" ->
  draft_value draft key = Some (JStr v) ->
  fst (filter_in c (has_field key (Some (JStr v))) w) = Ok fl ->
  fst (filter_in c (has_field key (Some (JStr v))) (snd (create_in c draft w)))
    = Ok (fl ++ [match fst (create_in c draft w) with Ok r => r | Throw e => e end])%list.
Proof.
  intros Hc Hf H1 H2 H3 Hv Hfl.
  unfold filter_in, readData, bind, lift in Hfl |- *. rewrite Hc in Hfl. cbn [as_array fst] in Hfl.
  rewrite (create_in_run c draft w l Hc Hf). cbn zeta. cbn [fst snd].
  rewrite get_set_file. cbn [as_array].
  erewrite (filter_m_app_one _ _ _ _ true Hfl); [reflexivity|].
  unfold has_field. cbn [get_prop]. rewrite created_get.
  apply String.eqb_neq in H1, H2, H3. rewrite H1, H2, H3.
  unfold draft_value in Hv. destruct (obj_lookup (rev draft) key) as [ov|]; [|discriminate].
  subst ov. simpl. now rewrite String.eqb_refl.
Qed.

Lemma filter_after_create_witness :
  fst (filter_in Detections (has_field "uploadId" (Some (JStr "upload-1")))
                 (snd (create_in Detections upload_draft completed_world)))
    = Ok ([completed_record] ++
          [match fst (create_in Detections upload_draft completed_world) with
           | Ok r => r | Throw e => e end])%list.
Proof.
  apply (filter_after_create Detections "uploadId" "upload-1" upload_draft completed_world
           [completed_record]); try reflexivity; discriminate.
Defined.





End StoreOps.



(** ** Statistics *)

Module StatsOps.
Import DataService Stats ObjFacts SpecProps OcclusionStats.









(** [calculateOcclusionStats]: [0 <= occludedVehicles <= totalVehicles]. *)
Theorem occlusionStats_bounds (ds : list json) (tot occ : Z) :
  occlusion_counts 0 0 ds = Ok (tot, occ) -> (0 <= occ <= tot)%Z.
Proof.
  intros H. destruct (occlusion_counts_spec _ _ _ _ _ H) as [-> ->].
  pose proof (filter_length_le top_occluded (top_vehicles ds)). lia.
Qed.

Lemma occlusionStats_bounds_witness :
  (0 <= 1 <= 2)%Z /\
  occlusion_counts 0 0 [JObj [("vehicles", JArr [JObj [("occluded", JBool true)]; JObj []])]]
    = Ok (2%Z, 1%Z).
Proof.
  split; [apply (occlusionStats_bounds
                   [JObj [("vehicles", JArr [JObj [("occluded", JBool true)]; JObj []])]]);
          reflexivity | reflexivity].
Defined.

Lemma last10_spec (l : list json) :
  List.length (last10 l) = Nat.min 10 (List.length l) /\
  exists pre, l = (pre ++ last10 l)%list.
Proof.
  unfold last10. split.
  - rewrite length_skipn. lia.
  - exists (firstn (List.length l - 10) l). symmetry. apply firstn_skipn.
Qed.

(** [getStats(userId)] on readable files: it writes nothing; [totalUploads]
    counts the user's uploads (all uploads when [userId] is falsy), and
    [recentActivity] lists the last [min(10, n)] of them, newest first. *)
Theorem getStats_recent (userId : option json) (w : World) (ul : list json) (r : json) (w' : World) :
  get_file w Uploads = FileOk (JArr ul) ->
  getStats userId w = (Ok r, w') ->
  w' = w /\
  exists uu ra pre,
    (if truthy userId then filter_m (has_userId userId) ul = Ok uu else uu = ul) /\
    obj_get (to_fields r) "totalUploads" = Some (JNum (inject_Z (Z.of_nat (List.length uu)))) /\
    obj_get (to_fields r) "recentActivity" = Some (JArr ra) /\
    List.length ra = Nat.min 10 (List.length uu) /\
    uu = (pre ++ rev ra)%list.
Proof.
  intros Hu H. unfold getStats, readData, bind, lift, ret in H.
  rewrite Hu in H. cbn [as_array] in H.
  assert (Hd : exists dl, match get_file w Detections with
                          | FileOk v => (Ok v, w) | FileBad => (Ok (JArr []), w) end
                          = (Ok (JArr dl), w)).
  { destruct (get_file w Detections) as [dv|]; [|eexists; reflexivity].
    destruct dv as [| | | | dl |]; cbn [as_array] in H; try discriminate H.
    eexists; reflexivity. }
  destruct Hd as [dl Hd]. rewrite Hd in H. cbn [as_array] in H.
  destruct (truthy userId) eqn:Ht.
  - destruct (filter_m (has_userId userId) ul) as [uu|e] eqn:Eu; [|discriminate H].
    destruct (filter_m (has_userId userId) dl) as [ud|e]; [|discriminate H].
    destruct (calculateVehicleStats ud); [|discriminate H].
    destruct (calculateOcclusionStats ud); [|discriminate H].
    inversion H; subst. split; [reflexivity|].
    destruct (last10_spec uu) as [Hl [pre Hpre]].
    exists uu, (rev (last10 uu)), pre. rewrite rev_involutive, length_rev.
    repeat split; auto.
  - destruct (calculateVehicleStats dl); [|discriminate H].
    destruct (calculateOcclusionStats dl); [|discriminate H].
    inversion H; subst. split; [reflexivity|].
    destruct (last10_spec ul) as [Hl [pre Hpre]].
    exists ul, (rev (last10 ul)), pre. rewrite rev_involutive, length_rev.
    repeat split; auto.
Qed.

Lemma getStats_recent_witness :
  let w := mkWorld (FileOk (JArr [])) (FileOk (JArr [upload_record 1; upload_record 2]))
                   (FileOk (JArr [])) 0%Z 0 [] in
  w = w /\
  exists uu ra pre,
    (if truthy None then filter_m (has_userId None) [upload_record 1; upload_record 2] = Ok uu
     else uu = [upload_record 1; upload_record 2]) /\
    obj_get (to_fields (match fst (getStats None w) with Ok r => r | Throw e => e end))
      "totalUploads" = Some (JNum (inject_Z (Z.of_nat (List.length uu)))) /\
    obj_get (to_fields (match fst (getStats None w) with Ok r => r | Throw e => e end))
      "recentActivity" = Some (JArr ra) /\
    List.length ra = Nat.min 10 (List.length uu) /\
    uu = (pre ++ rev ra)%list.
Proof.
  intros w.
  apply (getStats_recent None w [upload_record 1; upload_record 2]
           (match fst (getStats None w) with Ok r => r | Throw e => e end) w);
    reflexivity.
Defined.

End StatsOps.


(** ** Properties of the getters of the [Detection] model *)

Module DetectionGetters.
Import Stats DetectionOps.















End DetectionGetters.


(** ** [addAnnotation] and [updateStatus] through [save] *)

Module DetectionSaves.
Import DataService DetectionOps ObjFacts SaveFacts.

Lemma prepare_set_annotations d d' v :
  Detection.prepare d = Ok d' ->
  Detection.prepare (set_annotations d v) = Ok (set_annotations d' v).
Proof.
  destruct d; unfold Detection.prepare, set_annotations, Detection.set_duration,
    Detection.set_results; cbn.
  destruct (truthy processingStartTime && truthy processingEndTime); cbn;
    destruct (Detection.recompute_occlusion results); intros H; inversion H; reflexivity.
Qed.

(** [addAnnotation(annotation)] on a stored Detection whose [annotations]
    is an array: the stored record is replaced in place, and both its
    [annotations] and the returned instance's are the old list followed by
    the annotation with [timestamp] set to the current time. *)
Theorem addAnnotation_stored (d d' : Detection.t) (fs : list (string * json)) (l rl : list json)
    (k : nat) (w : World) :
  Detection.prepare d = Ok d' ->
  truthy (Detection.id d) = true ->
  Detection.annotations d = Some (JArr l) ->
  w_dets w = FileOk (JArr rl) -> w_faults w = [] ->
  findIndex_m (has_id (Detection.id d)) rl = Ok (Some k) ->
  let anns := JArr (l ++ [JObj (obj_set fs "timestamp" (JNum (inject_Z (w_clock w))))]) in
  exists d'' r,
    addAnnotation d (JObj fs) w = (Ok d'', set_file w Detections (FileOk (JArr (replace_nth rl k r)))) /\
    obj_get (to_fields r) "annotations" = Some anns /\
    Detection.annotations d'' = Some anns.
Proof.
  intros Hp Ht Ha Hd Hf Hi anns.
  unfold addAnnotation, bind, now, lift. rewrite Ha. cbn [as_array].
  fold anns.
  pose proof (prepare_set_annotations d d' (Some anns) Hp) as Hp'.
  rewrite (save_update (set_annotations d (Some anns)) (set_annotations d' (Some anns)) w rl k
             Hp' Ht Hd Hf Hi).
  set (r := JObj (obj_set (spread (to_fields (nth k rl JNull))
                  (Detection.detectionData (set_annotations d' (Some anns))))
                  "updatedAt" (JNum (inject_Z (w_clock w))))).
  assert (Hr : obj_get (to_fields r) "annotations" = Some anns).
  { unfold r. cbn [to_fields]. rewrite updated_get by discriminate. reflexivity. }
  exists (Detection.assign (set_annotations d' (Some anns)) r), r.
  split; [reflexivity|]. split; [exact Hr|].
  unfold Detection.assign. cbn [Detection.annotations]. rewrite Hr. reflexivity.
Qed.

Definition annotated_world : World :=
  mkWorld (FileOk (JArr [])) (FileOk (JArr []))
          (FileOk (JArr [JObj [("id", JStr "det-1"); ("annotations", JArr [])]])) 7%Z O [].

Lemma addAnnotation_stored_witness :
  let d := Detection.of_json (JObj [("id", JStr "det-1")]) in
  let anns := JArr ([] ++ [JObj (obj_set [("note", JStr "checked")] "timestamp"
                                    (JNum (inject_Z (w_clock annotated_world))))]) in
  exists d'' r,
    addAnnotation d (JObj [("note", JStr "checked")]) annotated_world =
      (Ok d'', set_file annotated_world Detections
                 (FileOk (JArr (replace_nth [JObj [("id", JStr "det-1"); ("annotations", JArr [])]] O r)))) /\
    obj_get (to_fields r) "annotations" = Some anns /\
    Detection.annotations d'' = Some anns.
Proof.
  intros d anns.
  apply (addAnnotation_stored d d [("note", JStr "checked")] []
           [JObj [("id", JStr "det-1"); ("annotations", JArr [])]] O annotated_world);
    reflexivity.
Defined.

Lemma terminal_not_processing s : Detection.is_terminal s = true -> String.eqb s "processing" = false.
Proof.
  intros H. destruct (String.eqb_spec s "processing") as [->|]; [discriminate H | reflexivity].
Qed.

(** [updateStatus(status, errorDetails)] with a terminal [status] on a
    stored Detection that has a start time but no end time: the stored
    record gets the status, [processingEndTime] = now and
    [processingDuration] = now - [processingStartTime]. *)
Theorem updateStatus_terminal_duration (d : Detection.t) (s : string) (ed : option json) (st : Q)
    (rr : option json) (w : World) (l : list json) (k : nat) :
  Detection.is_terminal s = true ->
  Detection.processingStartTime d = Some (JNum st) -> Qeq_bool st 0 = false ->
  truthy (Detection.processingEndTime d) = false ->
  truthy (Detection.id d) = true ->
  Detection.recompute_occlusion (Detection.results d) = Ok rr ->
  w_dets w = FileOk (JArr l) -> w_faults w = [] -> (w_clock w <> 0)%Z ->
  findIndex_m (has_id (Detection.id d)) l = Ok (Some k) ->
  exists r,
    snd (Detection.updateStatus d s ed w) = set_file w Detections (FileOk (JArr (replace_nth l k r))) /\
    obj_get (to_fields r) "status" = Some (JStr s) /\
    obj_get (to_fields r) "processingEndTime" = Some (JNum (inject_Z (w_clock w))) /\
    obj_get (to_fields r) "processingDuration" = Some (JNum (inject_Z (w_clock w) - st)).
Proof.
  intros Hs Hst Hst0 He Hid Hrr Hd Hf Hc Hi.
  assert (Htc : truthy (Some (JNum (inject_Z (w_clock w)))) = true).
  { cbn [truthy]. destruct (Qeq_bool (inject_Z (w_clock w)) 0) eqn:E; [|reflexivity].
    apply Qeq_bool_eq in E. unfold Qeq in E. cbn in E. lia. }
  unfold Detection.updateStatus, bind, now, ret.
  rewrite (terminal_not_processing s Hs). cbn [andb].
  cbn [Detection.processingEndTime Detection.set_status]. rewrite He, Hs. cbn [negb andb].
  set (d2 := Detection.set_end (Detection.set_status d (Some (JStr s)))
                               (Some (JNum (inject_Z (w_clock w))))).
  set (d3 := if truthy ed then Detection.set_errorDetails d2 ed else d2).
  set (d4 := Detection.set_results
               (Detection.set_duration d3
                  (Some (Detection.date_diff (Some (JNum (inject_Z (w_clock w)))) (Some (JNum st)))))
               rr).
  assert (Hp : Detection.prepare d3 = Ok d4).
  { unfold d4, d3, d2, Detection.prepare.
    destruct (truthy ed); cbn [Detection.processingStartTime Detection.processingEndTime
      Detection.set_errorDetails Detection.set_end Detection.set_status Detection.results
      Detection.set_duration];
      rewrite Hst, Htc; cbn [truthy]; rewrite Hst0; cbn [negb andb];
      unfold Detection.set_duration, Detection.set_errorDetails, Detection.set_end,
        Detection.set_status; cbn [Detection.results]; rewrite Hrr; reflexivity. }
  assert (Hid3 : Detection.id d3 = Detection.id d) by (unfold d3, d2; destruct (truthy ed); reflexivity).
  rewrite <- Hid3 in Hid, Hi.
  rewrite (save_update d3 d4 w l k Hp Hid Hd Hf Hi). cbn [snd].
  eexists. split; [reflexivity|].
  cbn [to_fields]. rewrite !updated_get by discriminate.
  unfold d4, d3, d2. destruct (truthy ed); (split; [reflexivity | split; reflexivity]).
Qed.

Definition started_world : World :=
  mkWorld (FileOk (JArr [])) (FileOk (JArr []))
          (FileOk (JArr [JObj [("id", JStr "det-1"); ("status", JStr "processing")]])) 9000%Z O [].

Definition started_detection : Detection.t :=
  Detection.of_json (JObj [("id", JStr "det-1"); ("status", JStr "processing");
                           ("processingStartTime", JNum (inject_Z 4000))]).

Lemma updateStatus_terminal_duration_witness :
  exists r,
    snd (Detection.updateStatus started_detection "completed" None started_world) =
      set_file started_world Detections
        (FileOk (JArr (replace_nth [JObj [("id", JStr "det-1"); ("status", JStr "processing")]] O r))) /\
    obj_get (to_fields r) "status" = Some (JStr "completed") /\
    obj_get (to_fields r) "processingEndTime" = Some (JNum (inject_Z (w_clock started_world))) /\
    obj_get (to_fields r) "processingDuration" =
      Some (JNum (inject_Z (w_clock started_world) - inject_Z 4000)).
Proof.
  apply (updateStatus_terminal_duration started_detection "completed" None (inject_Z 4000)
           (Detection.results started_detection) started_world
           [JObj [("id", JStr "det-1"); ("status", JStr "processing")]] O);
    try reflexivity; discriminate.
Defined.

End DetectionSaves.


(** ** The background job with the source's mock results *)

Module MockJobRun.
Import DataService ObjFacts SaveFacts SpecProps OcclusionOnSave JobFailure MockJob.

Definition mock_vehicles : list json :=
  match obj_get (to_fields mockResults) "vehicles" with
  | Some (JArr l) => l
  | _ => []
  end.

Lemma truthy_clock z : (z <> 0)%Z -> truthy (Some (JNum (inject_Z z))) = true.
Proof.
  intros Hz. cbn [truthy]. destruct (Qeq_bool (inject_Z z) 0) eqn:E; [|reflexivity].
  apply Qeq_bool_eq in E. unfold Qeq in E. cbn in E. lia.
Qed.

(** [processVehicleDetection] as the source runs it, on a stored Detection
    whose own results can be saved: the run ends normally and the record is
    replaced in place with status [completed], [processingEndTime] 5100 ms
    after the job was scheduled, [processingDuration] 5000 ms, and results
    that keep [totalVehicles: 3] and the vehicles of [mockResults] but hold
    the recomputed [occludedVehicles: 1] and [occlusionPercentage: 1/3*100]
    in place of the literal's [33.33]. *)
Theorem background_src_completed (i : string) (w : World) (l : list json) (k : nat)
    (fs rs : list (string * json)) :
  w_dets w = FileOk (JArr l) -> w_faults w = [] ->
  findIndex_m (has_id (Some (JStr i))) l = Ok (Some k) ->
  nth k l JNull = JObj fs -> obj_get fs "id" = Some (JStr i) -> i <> "" ->
  Detection.recompute_occlusion (Detection.results (Detection.of_json (JObj fs))) =
    Ok (Some (JObj rs)) ->
  (0 <= w_clock w)%Z ->
  exists r rsf,
    fst (background_src (Some (JStr i)) w) = Ok tt /\
    stored_detections (snd (background_src (Some (JStr i)) w)) = replace_nth l k r /\
    stored_status r = Some (JStr "completed") /\
    obj_get (to_fields r) "processingEndTime" = Some (JNum (inject_Z (w_clock w + 5100))) /\
    obj_get (to_fields r) "processingDuration" =
      Some (JNum (inject_Z (w_clock w + 5100) - inject_Z (w_clock w + 100))) /\
    obj_get (to_fields r) "results" = Some (JObj rsf) /\
    obj_get rsf "totalVehicles" = Some (JNum 3) /\
    obj_get rsf "vehicles" = Some (JArr mock_vehicles) /\
    obj_get rsf "occludedVehicles" = Some (JNum (inject_Z 1)) /\
    obj_get rsf "occlusionPercentage" = Some (JNum (inject_Z 1 / inject_Z 3 * 100)).
Proof.
  intros Hd Hf Hk Hn Hid Hi Hr Hc0.
  set (clk := w_clock w).
  set (d0 := Detection.of_json (JObj fs)).
  set (w1 := mkWorld (w_users w) (w_uploads w) (w_dets w) (clk + 100) (w_uuid w) (w_faults w)).
  set (d1 := Detection.set_start (Detection.set_status d0 (Some (JStr "processing")))
                                 (Some (JNum (inject_Z (w_clock w1))))).
  destruct (prepare_ok d1 _ Hr) as [d1' [Hp1 Hres1]].
  destruct (prepare_fields _ _ Hp1) as [_ [_ [Hs1 _]]].
  assert (Hid1 : Detection.id d1 = Some (JStr i)) by exact Hid.
  assert (Htr1 : truthy (Detection.id d1) = true).
  { rewrite Hid1. simpl. destruct (String.eqb_spec i ""); [contradiction | reflexivity]. }
  assert (Hk1 : findIndex_m (has_id (Detection.id d1)) l = Ok (Some k)) by (rewrite Hid1; exact Hk).
  pose proof (save_update d1 d1' w1 l k Hp1 Htr1 Hd Hf Hk1) as Hsave1.
  cbv zeta in Hsave1.
  set (r1fs := obj_set (spread (to_fields (nth k l JNull)) (Detection.detectionData d1'))
                       "updatedAt" (JNum (inject_Z (w_clock w1)))) in Hsave1.
  set (w2 := set_file w1 Detections (FileOk (JArr (replace_nth l k (JObj r1fs))))) in Hsave1.
  pose proof (sleep_run 5000 w2) as Hsl.
  set (w3 := mkWorld (w_users w2) (w_uploads w2) (w_dets w2) (w_clock w2 + 5000)
                     (w_uuid w2) (w_faults w2)) in Hsl.
  assert (Hr1id : obj_get r1fs "id" = Some (JStr i)).
  { unfold r1fs. rewrite updated_get by discriminate. simpl obj_lookup. now rewrite Hn. }
  assert (Hx : has_id (Some (JStr i)) (JObj r1fs) = Ok true).
  { unfold has_id. simpl get_prop. rewrite Hr1id. simpl. now rewrite String.eqb_refl. }
  pose proof (findIndex_replace _ _ _ _ Hk Hx) as Hk2.
  pose proof (nth_replace l k (JObj r1fs) (findIndex_lt _ _ _ Hk)) as Hn2.
  assert (Hd3 : w_dets w3 = FileOk (JArr (replace_nth l k (JObj r1fs)))) by reflexivity.
  pose proof (findById_found w1 _ _ _ _ Hd Hk Hn) as Hfind1.
  set (d4 := Detection.assign d1' (JObj r1fs)).
  assert (Hid4 : Detection.id d4 = Some (JStr i)).
  { unfold d4, Detection.assign. cbn [to_fields Detection.id]. now rewrite Hr1id. }
  assert (Hres4 : Detection.results d4 = Some (JObj rs)).
  { unfold d4, Detection.assign. cbn [to_fields Detection.results].
    unfold r1fs. rewrite updated_get by discriminate.
    rewrite detectionData_results, Hres1. reflexivity. }
  assert (Hs4 : Detection.processingStartTime d4 = Some (JNum (inject_Z (w_clock w1)))).
  { unfold d4, Detection.assign. cbn [to_fields Detection.processingStartTime].
    unfold r1fs. rewrite updated_get by discriminate. simpl obj_lookup. rewrite Hs1. reflexivity. }
  set (mobj := obj_of (to_fields mockResults)).
  set (d5 := Detection.set_results
               (Detection.set_end (Detection.set_status d4 (Some (JStr "completed")))
                                  (Some (JNum (inject_Z (w_clock w3)))))
               (Some (JObj (spread (to_fields
                  (match Detection.results
                           (Detection.set_end (Detection.set_status d4 (Some (JStr "completed")))
                                              (Some (JNum (inject_Z (w_clock w3)))))
                   with Some r => r | None => JNull end)) mobj)))).
  assert (Hclk1 : (w_clock w1 = clk + 100)%Z) by reflexivity.
  assert (Hclk3 : (w_clock w3 = clk + 5100)%Z) by (cbn; unfold clk; lia).
  set (rsm := spread rs mobj).
  assert (Hv : obj_get rsm "vehicles" = Some (JArr mock_vehicles)).
  { unfold rsm. rewrite spread_get. reflexivity. }
  assert (Hcnt : Detection.count_occluded mock_vehicles = Ok 1%Z) by reflexivity.
  pose proof (recompute_saved rsm mock_vehicles 1%Z (or_introl Hv) Hcnt) as Hrec.
  set (RS := saved_results rsm mock_vehicles 1%Z) in Hrec.
  set (dur := JNum (inject_Z (w_clock w3) - inject_Z (w_clock w1))).
  set (d5' := Detection.set_results (Detection.set_duration d5 (Some dur)) (Some (JObj RS))).
  assert (Hp5 : Detection.prepare d5 = Ok d5').
  { unfold Detection.prepare.
    change (Detection.processingStartTime d5) with (Detection.processingStartTime d4).
    change (Detection.processingEndTime d5) with (Some (JNum (inject_Z (w_clock w3)))).
    rewrite Hs4, !truthy_clock by lia. cbn [andb].
    change (Detection.results (Detection.set_duration d5 (Some (Detection.date_diff
              (Some (JNum (inject_Z (w_clock w3)))) (Some (JNum (inject_Z (w_clock w1))))))))
      with (Some (JObj (spread (to_fields (match Detection.results d4 with
                                           | Some r => r | None => JNull end)) mobj))).
    rewrite Hres4. cbn [to_fields]. fold rsm. rewrite Hrec. reflexivity. }
  assert (Hid5 : Detection.id d5 = Some (JStr i)) by exact Hid4.
  assert (Htr5 : truthy (Detection.id d5) = true) by (rewrite Hid5; rewrite <- Hid1; exact Htr1).
  assert (Hk5 : findIndex_m (has_id (Detection.id d5)) (replace_nth l k (JObj r1fs)) = Ok (Some k))
    by (rewrite Hid5; exact Hk2).
  pose proof (save_update d5 d5' w3 _ k Hp5 Htr5 Hd3 Hf Hk5) as Hsave5.
  cbv zeta in Hsave5. rewrite Hn2 in Hsave5.
  set (r2fs := obj_set (spread (to_fields (JObj r1fs)) (Detection.detectionData d5'))
                       "updatedAt" (JNum (inject_Z (w_clock w3)))) in Hsave5.
  set (w5 := set_file w3 Detections _) in Hsave5.
  assert (Hrun : background_src (Some (JStr i)) w = (Ok tt, w5)).
  { unfold background_src, JobRunner.background.
    rewrite (bind_ok _ _ _ _ _ (sleep_run 100 w)). cbv beta.
    apply try_catch_ok. unfold JobRunner.processVehicleDetection.
    apply try_catch_ok.
    rewrite (bind_ok _ _ _ _ _ Hfind1). cbv beta iota zeta.
    rewrite (bind_ok _ _ _ _ _ (eq_refl : now w1 = _)). cbv beta.
    rewrite (bind_ok _ _ _ _ _ Hsave1). cbv beta.
    rewrite (bind_ok _ _ _ _ _ Hsl). cbv beta.
    rewrite (bind_ok _ _ _ _ _ (eq_refl : lift (Ok mockResults) w3 = _)). cbv beta.
    rewrite (bind_ok _ _ _ _ _ (eq_refl : now w3 = _)). cbv beta.
    rewrite (bind_ok _ _ _ _ _ Hsave5). reflexivity. }
  rewrite Hrun. cbn [fst snd].
  exists (JObj r2fs), RS. split; [reflexivity|]. split.
  { unfold stored_detections, w5. cbn [set_file w_dets]. apply replace_replace. }
  unfold stored_status, r2fs; cbn [to_fields].
  rewrite !updated_get by discriminate.
  cbn [rev Detection.detectionData app obj_lookup String.eqb].
  simpl. split; [reflexivity|]. split.
  { do 3 f_equal. lia. }
  split.
  { unfold dur. rewrite Hclk3, Hclk1. reflexivity. }
  split; [reflexivity|].
  assert (Hm : exists a r, mock_vehicles = a :: r /\ List.length mock_vehicles = 3%nat)
    by (eexists _, _; split; reflexivity).
  destruct Hm as [a [r [Hm Hlen]]].
  unfold RS, saved_results. rewrite Hlen, Hm.
  rewrite !obj_get_set. simpl String.eqb. cbv iota.
  split.
  { unfold rsm. rewrite spread_get. reflexivity. }
  split; [rewrite Hv, Hm; reflexivity|]. split; reflexivity.
Qed.

Lemma background_src_completed_witness :
  exists r rsf,
    fst (background_src (Some (JStr "det-1")) pending_world) = Ok tt /\
    stored_detections (snd (background_src (Some (JStr "det-1")) pending_world)) =
      replace_nth [pending_record] O r /\
    stored_status r = Some (JStr "completed") /\
    obj_get (to_fields r) "processingEndTime" = Some (JNum (inject_Z (w_clock pending_world + 5100))) /\
    obj_get (to_fields r) "processingDuration" =
      Some (JNum (inject_Z (w_clock pending_world + 5100) - inject_Z (w_clock pending_world + 100))) /\
    obj_get (to_fields r) "results" = Some (JObj rsf) /\
    obj_get rsf "totalVehicles" = Some (JNum 3) /\
    obj_get rsf "vehicles" = Some (JArr mock_vehicles) /\
    obj_get rsf "occludedVehicles" = Some (JNum (inject_Z 1)) /\
    obj_get rsf "occlusionPercentage" = Some (JNum (inject_Z 1 / inject_Z 3 * 100)).
Proof.
  apply (background_src_completed "det-1" pending_world [pending_record] O
           (to_fields pending_record) (to_fields Detection.default_results));
    try reflexivity; try discriminate; cbn; lia.
Defined.

End MockJobRun.
